(* ===== verification/_CoqProject ===== *)
-Q . S2P
Prelude.v
Hardware.v
Encoder.v
Decoder.v
PyFloat.v
Gate.v
Driver.v
Concurrency.v
Session.v
