(* ===== verification/Prelude.v ===== *)
(** * A verification development of the Hummingbird bit driver

    The program is [src/hummingbird.py], a MicroPython driver for the
    BirdBrain Hummingbird bit expansion board of the micro:bit: one class
    [hummingbird] with class attributes (the flag [readyToSend], the SPI
    delays [waitTime_*], the sensor identifiers) and seven static
    operations.  Every operation follows the same shape: a coarse wait of
    at most 25 x 10 ms for [readyToSend]; a guard (port range and
    [readyToSend]); the parameter conversions; a spin wait on
    [readyToSend]; [readyToSend = False]; a framed SPI exchange (settle
    delay, strobe [pin16] low, bytes separated by delays, strobe high);
    [readyToSend = True]; for the sensors, a conversion of the byte read.

    ** Files, in dependency order, and what they model

    - [Prelude] (this file): Python's integer semantics the driver relies
      on ([int(n / d)] as [py_int_div], [round(n / d)] with ties to even
      as [py_round_div], [max(lo, min(x, hi))] as [py_clamp]), one-byte
      buffers ([bytes([x])] as [bytes1], [int.from_bytes] as [byte_val]),
      a state and exception monad [ST] with outcomes [Ok], [Raise] (Python
      exceptions: [ValueError], [IndexError]) and [Hang] (a loop out of
      fuel), its notation in [hb_scope], the tactics [hb_lia], [hb_simpl],
      [hb_eval_tests] and the hint database [hb].
    - [Hardware]: the world ([world]: [readyToSend], the controller's
      MISO byte stream [rx], the exchange count [nxfer], the event
      [trace]) and the MicroPython primitives as [HB] actions ([sleep],
      [sleep_us], [write_digital], [write_analog], [spi_write],
      [spi_write_readinto], [bytes_of], ...).  [framed] is the frame the
      code sends (lines 158-169: settle delay, strobe low, short delay,
      bytes separated by the long delay, short delay, strobe high), which
      is the spec's Bus Transport (section 4.1) with the settle delay
      moved before the strobe and no trailing delay, a recorded
      divergence.
    - [Encoder]: the actuator conversions of [setLED], [setTriLED],
      [setPositionServo], [setRotationServo] and their opcodes.
    - [Decoder]: the sensor and battery conversions of [getSensor] and
      [getBattery].
    - [PyFloat]: the same conversions written literally on binary64
      floats ([SpecFloat]): Python's [/] on two integers, [int] and
      [round] of a float.
    - [Gate]: the coarse wait and the spin wait, as fuelled [Fixpoint]s.
    - [Driver]: the seven operations, each the whole handler as written,
      composed from the above.
    - [Concurrency]: tasks running the operations concurrently, sharing
      [readyToSend]: a statement-level step relation [tstep], a
      cooperative scheduler [coop_step] (switches only at sleeps) and a
      preemptive one [fine_step]; [call] and [call_task] give each
      operation call its task, with the length of its transaction taken
      from [Driver].
    - [Session]: one task calling [startHummingbird] and then operations
      in sequence ([run_seq], [run_calls], [session]), proved against the
      gate contract alone, and the well-formedness [wf_world] of a world.

    ** How the parts interact

    [Gate] states what an operation promises its callers as the class
    [GatedOp]: with the flag clear it sleeps 250 ms and returns its
    default; with the flag set it returns without a coarse wait, leaves
    the flag set and makes every exchange with the strobe low
    ([Hardware.strobe_run]).  [Driver] proves one instance per
    operation; [Session] uses only the class, so its theorems hold for
    any operation that keeps the contract.

    ** What the theorems show

    - Functional behaviour of every operation on every branch: the exact
      result and final world (trace, exchanges, flag) on a valid port with
      the flag set ([Driver.getSensor_reads_port], [setTriLED_sends_frame],
      [servos_send_frame], [setLED_effect], [getBattery_reads_fourth],
      [startHummingbird_effect]); the no-op on an invalid port
      ([invalid_port_no_transaction]); the 250 ms give-up when the flag
      stays clear ([not_ready_gives_up]).  The actuator theorems state
      the trace as a [framed] exchange of the bytes the code writes.
    - Bounds: every byte written lies in [range(256)], so [bytes([x])]
      never raises; the local LED duty lies in [0..1020]
      ([Encoder.encoded_params_in_range]); every reading lies in its range
      ([Decoder.readings_in_range]).
    - Conversions: the rotation servo's stop band and command band
      ([speed_conv_spec]), monotonicity, truncation against the spec's
      rounding, opcode distinctness; Python's tie rule on the readings
      ([rounding_ties], decided over all 256 bytes).
    - Floats: the literal binary64 computations equal the exact models on
      every input the driver can produce ([PyFloat.float_conversions_exact],
      [float_readings_exact], decided over the clamped ranges and the 256
      bytes), which justifies computing with exact rationals elsewhere.
    - The gate: the spin wait never returns alone
      ([Gate.spin_wait_never_returns_alone]); under cooperative scheduling
      the flag is a lock ([Concurrency.coop_mutual_exclusion], by rule
      induction over [rtc coop_step] with the invariant [lock_inv]), in
      particular for the program as deployed ([program_mutual_exclusion]);
      every slice of a task makes progress, so no task spins forever and a
      call ends within 35 of its slices ([coop_slice_progress]);
      the task of each call matches its code
      ([call_task_matches_driver]); the flag is not a lock under
      preemption ([fine_race]) nor when [startHummingbird] runs again
      ([restart_breaks_lock]).
    - Sequences and well-formedness: every operation, on every branch,
      and [startHummingbird] keep [wf_world] (no exchange with the strobe
      high; the strobe high while the flag is set)
      ([Session.operations_preserve_wf]); after [startHummingbird] every
      call of a task finds the flag set and none waits
      ([session_keeps_gate]); calls made before it are all lost, 250 ms
      each ([calls_without_start]).
    - Divergences from the spec: [sensor_poll_not_framed] (the sensor
      poll's delays), [getBattery_reads_fourth] (4 exchanges, not 6),
      [code_truncates_spec_rounds], [speed_conv_spec] (99..145, not
      104..144), [readings_in_range] (battery 255 gives 10353).

    ** Bounds and fuel

    Each operation takes one [fuel] for both of its loops.  The coarse loop
    needs [coarse_fuel = 26] rounds from [timeout = 0] (25 sleeps and the
    exit test) and the theorems assume [26 <= fuel]; the spin loop returns
    in its first round whenever it is reached with the flag set, which is
    the only way a single task reaches it.  With the flag clear it never
    returns, for any fuel.  Integers are Python's unbounded integers ([Z]);
    bytes are [Byte.byte].  [int(x * k / d)] and [round(x * k / d)] use
    float division: [Encoder] and [Decoder] compute them on exact
    rationals, and [PyFloat] proves this equal to the binary64
    computation on every input.

    ** Not modelled

    The MicroPython runtime ([microbit] module) beyond the effects the
    driver observes: pins, SPI and the display are events of the trace,
    their timing is the sleeps.  The text shown by [display.scroll] and
    [print] is not modelled, only that it happens; [display.scroll] is
    one event, although on the device it blocks while it scrolls.  The
    scheduler is the environment: [coop_step] and [fine_step] model the
    spec's cooperative tasks (section 5), not code of the repository.

    There is no round trip in the program: the driver encodes commands
    and decodes readings but never decodes what it encodes, and the
    controller's firmware is not part of the repository.  Which reply
    each [vals[i]] holds after the poll is part of
    [getSensor_reads_port].

    The programs that call the driver are not code of the repository:
    [Session]'s sequences and [Concurrency]'s task pools are the uses the
    spec describes, written as harnesses.  The interface between the
    operations and their callers is a [Class] ([GatedOp]) rather than a
    [Module Type], because it is a property of each operation.

    PLAN for the next sitting: the blocking [display.scroll] of [setLED]
    as time inside its transaction and its effect on concurrent callers
    (their 250 ms give-up); liveness under cooperative scheduling (a
    waiting task acquires or gives up within 26 of its slices). *)

From Stdlib Require Import ZArith NArith Lia List Bool.
From Stdlib Require Import Strings.Byte.
Import ListNotations.

Declare Scope hb_scope.
Delimit Scope hb_scope with hb.
Open Scope Z_scope.

Create HintDb hb discriminated.

(** ** Python integer arithmetic on exact operands *)

(** [int(n / d)]: Python's true division followed by [int], which
    truncates toward zero.  The operands of the driver are small exact
    integers (|n| < 2^53), so the float quotient never crosses an integer
    and the result is the truncated rational quotient. *)
Definition py_int_div (n d : Z) : Z := Z.quot n d.

(** [round(n / d)] for [d > 0]: Python 3 rounds half to even. *)
Definition py_round_div (n d : Z) : Z :=
  let q := n / d in
  let r := n mod d in
  match Z.compare (2 * r) d with
  | Lt => q
  | Gt => q + 1
  | Eq => if Z.even q then q else q + 1
  end.

(** [max(lo, min(x, hi))], the clamp the driver writes inline. *)
Definition py_clamp (lo hi x : Z) : Z := Z.max lo (Z.min x hi).

(** ** One-byte buffers *)

Abbreviation byte := Byte.byte.

(** [int.from_bytes(buf, 'big')] of a one-byte [bytearray]. *)
Definition byte_val (b : byte) : Z := Z.of_N (Byte.to_N b).

(** [bytes([x])]: a one-byte buffer, or [ValueError] when [x] is not in
    [range(256)]. *)
Definition bytes1 (x : Z) : option byte :=
  if (0 <=? x) && (x <? 256) then Byte.of_N (Z.to_N x) else None.

(** The byte [bytes([x])] holds when [x] is in range ([0] otherwise). *)
Definition byte_of_Z (x : Z) : byte :=
  match bytes1 x with Some b => b | None => Byte.x00 end.

(** ** A state and exception monad

    A call either returns, raises a Python exception (the state changes
    made before the raise persist, as in Python), or does not return
    within the fuel given to a loop ([Hang]). *)

Inductive py_error : Type :=
  | ValueError (v : Z)
  | IndexError (i : Z).

Inductive outcome (A : Type) : Type :=
  | Ok (a : A)
  | Raise (e : py_error)
  | Hang.
Arguments Ok {A} a.
Arguments Raise {A} e.
Arguments Hang {A}.

Definition ST (S A : Type) : Type := S -> outcome A * S.

Definition ret {S A : Type} (a : A) : ST S A := fun s => (Ok a, s).

Definition bind {S A B : Type} (c : ST S A) (k : A -> ST S B) : ST S B :=
  fun s =>
    match c s with
    | (Ok a, s') => k a s'
    | (Raise e, s') => (Raise e, s')
    | (Hang, s') => (Hang, s')
    end.

Definition raise {S A : Type} (e : py_error) : ST S A := fun s => (Raise e, s).

Notation "x <- c ;; k" := (bind c (fun x => k))
  (at level 100, c at next level, k at level 200, right associativity) : hb_scope.
Notation "c ;; k" := (bind c (fun _ => k))
  (at level 100, k at level 200, right associativity) : hb_scope.

Open Scope hb_scope.

(** ** Tactics *)

(** Arithmetic with the division operators the driver uses. *)
Ltac hb_lia :=
  unfold py_int_div, py_clamp in *;
  Z.to_euclidean_division_equations; lia.

(** Symbolic evaluation of a model that keeps integer arithmetic folded. *)
Ltac hb_simpl :=
  cbn -[Z.add Z.sub Z.mul Z.ltb Z.leb Z.eqb Z.quot Z.div Z.modulo Z.to_nat
        Z.of_nat Z.min Z.max py_round_div py_int_div py_clamp] in *.

(** Decide the integer tests whose operands are literals. *)
Ltac hb_eval_tests :=
  repeat match goal with
  | |- context [?op ?a ?b] =>
      match op with Z.eqb => idtac | Z.ltb => idtac | Z.leb => idtac end;
      let t := constr:(op a b) in
      let v := eval vm_compute in t in
      match v with
      | true => change t with true
      | false => change t with false
      end
  end.

(** ** The monad *)

Lemma bind_Ok {S A B} (c : ST S A) (k : A -> ST S B) (s s' : S) (a : A) :
  c s = (Ok a, s') -> bind c k s = k a s'.
Proof. unfold bind. intros ->. reflexivity. Qed.

(** ** Bytes *)

Lemma byte_val_range (b : byte) : 0 <= byte_val b <= 255.
Proof.
  unfold byte_val. pose proof (Byte.to_N_bounded b). lia.
Qed.

Lemma bytes1_in_range (x : Z) :
  0 <= x <= 255 -> exists b, bytes1 x = Some b /\ byte_val b = x.
Proof.
  intros Hx. unfold bytes1.
  replace ((0 <=? x) && (x <? 256)) with true
    by (symmetry; apply andb_true_iff; split; [apply Z.leb_le | apply Z.ltb_lt]; lia).
  destruct (Byte.of_N (Z.to_N x)) as [b|] eqn:E.
  - exists b. split; [reflexivity|]. unfold byte_val.
    apply Byte.to_of_N in E. rewrite E. lia.
  - apply Byte.of_N_None_iff in E. lia.
Qed.

Lemma bytes1_out_of_range (x : Z) : (x < 0 \/ 255 < x) -> bytes1 x = None.
Proof.
  intros Hx. unfold bytes1.
  destruct (Z.leb_spec 0 x), (Z.ltb_spec x 256); simpl; try reflexivity; lia.
Qed.

Lemma bytes1_val (x : Z) (b : byte) : bytes1 x = Some b -> byte_val b = x.
Proof.
  intros H. destruct (Z_le_dec 0 x), (Z_le_dec x 255).
  - destruct (bytes1_in_range x) as [b' [E V]]; [lia|]. congruence.
  - rewrite bytes1_out_of_range in H by lia. discriminate.
  - rewrite bytes1_out_of_range in H by lia. discriminate.
  - rewrite bytes1_out_of_range in H by lia. discriminate.
Qed.

(** ** Python rounding *)

Lemma py_round_div_bounds (n d : Z) :
  0 < d -> n / d <= py_round_div n d <= n / d + 1.
Proof.
  intros Hd. unfold py_round_div.
  destruct (Z.compare_spec (2 * (n mod d)) d); [destruct (Z.even (n / d))|..]; lia.
Qed.

(** Rounding half to even is monotone in the numerator. *)
Lemma py_round_div_mono (n1 n2 d : Z) :
  0 < d -> n1 <= n2 -> py_round_div n1 d <= py_round_div n2 d.
Proof.
  intros Hd Hn.
  pose proof (Z.div_le_mono _ _ _ Hd Hn) as Hq.
  destruct (Z.eq_dec (n1 / d) (n2 / d)) as [Eq|Ne].
  - assert (Hr : n1 mod d <= n2 mod d).
    { rewrite (Z.mod_eq n1 d), (Z.mod_eq n2 d) by lia. rewrite Eq. lia. }
    unfold py_round_div. rewrite Eq.
    destruct (Z.compare_spec (2 * (n1 mod d)) d), (Z.compare_spec (2 * (n2 mod d)) d);
      destruct (Z.even (n2 / d)); lia.
  - pose proof (py_round_div_bounds n1 d Hd). pose proof (py_round_div_bounds n2 d Hd).
    lia.
Qed.

Lemma py_round_div_nonneg (n d : Z) : 0 < d -> 0 <= n -> 0 <= py_round_div n d.
Proof.
  intros Hd Hn. pose proof (py_round_div_bounds n d Hd).
  pose proof (Z.div_pos n d Hn Hd). lia.
Qed.

(** ** Clamps *)

Lemma py_clamp_range (lo hi x : Z) : lo <= hi -> lo <= py_clamp lo hi x <= hi.
Proof. intros. unfold py_clamp. lia. Qed.

Lemma py_clamp_id (lo hi x : Z) : lo <= x <= hi -> py_clamp lo hi x = x.
Proof. intros. unfold py_clamp. lia. Qed.

Lemma py_clamp_mono (lo hi x y : Z) : x <= y -> py_clamp lo hi x <= py_clamp lo hi y.
Proof. intros. unfold py_clamp. lia. Qed.

#[export] Hint Resolve byte_val_range py_clamp_range py_round_div_nonneg : hb.

Lemma py_int_div_floor (n d : Z) : 0 <= n -> 0 < d -> py_int_div n d = n / d.
Proof. intros. unfold py_int_div. apply Z.quot_div_nonneg; lia. Qed.

(** A property of every byte follows from a finite check over [0..255]. *)
Lemma forall_byte (P : Z -> bool) :
  forallb P (map Z.of_nat (seq 0 256)) = true -> forall b : byte, P (byte_val b) = true.
Proof.
  intros H b. rewrite forallb_forall in H. apply H.
  apply in_map_iff. exists (Z.to_nat (byte_val b)).
  pose proof (byte_val_range b). split; [lia|].
  apply in_seq. lia.
Qed.

Lemma bytes1_byte_of_Z (x : Z) : 0 <= x <= 255 -> bytes1 x = Some (byte_of_Z x).
Proof.
  intros Hx. destruct (bytes1_in_range x Hx) as [b [E _]].
  unfold byte_of_Z. rewrite E. reflexivity.
Qed.

(** A property of every integer of [lo .. lo + n - 1] follows from a
    finite check. *)
Lemma forall_range (lo : Z) (n : nat) (P : Z -> bool) :
  forallb P (map (fun i => lo + Z.of_nat i) (seq 0 n)) = true ->
  forall z, lo <= z < lo + Z.of_nat n -> P z = true.
Proof.
  intros H z Hz. rewrite forallb_forall in H. apply H.
  apply in_map_iff. exists (Z.to_nat (z - lo)). split; [lia|].
  apply in_seq. lia.
Qed.
