(* ===== verification/Hardware.v ===== *)
(** * The hardware boundary of [src/hummingbird.py]

    The world the driver acts on: the class attribute
    [hummingbird.readyToSend], the byte stream the board's controller
    shifts out on MISO, the number of SPI exchanges so far and the trace
    of observable events (sleeps, pin writes, SPI bytes, display output).
    Each MicroPython primitive the driver calls ([sleep], [sleep_us],
    [pinN.write_digital], [pinN.write_analog], [spi.init], [spi.write],
    [spi.write_readinto], [display.scroll], [bytes([x])]) is one action of
    the [HB] monad.  The Bus Transport contract of the spec (a framed
    exchange with an asymmetric delay profile) is [framed]. *)

From Stdlib Require Import ZArith List Bool Lia.
From Stdlib Require Import Strings.Byte.
From S2P Require Import Prelude.
Import ListNotations.
Open Scope Z_scope.
Open Scope hb_scope.

(** ** Class constants ([hummingbird.waitTime_*], lines 38-41) *)

Definition waitTime_1 : Z := 4.
Definition waitTime_2 : Z := 100.
Definition waitTime_Initial : Z := 500.
Definition waitTime_Start : Z := 2000.

(** ** Events *)

Inductive pin : Type := pin0 | pin2 | pin8 | pin13 | pin14 | pin15 | pin16.

Inductive event : Type :=
  | ESleepMs (ms : Z)                (** [sleep(ms)] *)
  | ESleepUs (us : Z)                (** [sleep_us(us)] *)
  | EDigital (p : pin) (v : Z)       (** [p.write_digital(v)] *)
  | EAnalog (p : pin) (v : Z)        (** [p.write_analog(v)] *)
  | ESpiInit                         (** [spi.init(baudrate=1000000, ...)] *)
  | ESpiWrite (out : byte)           (** [spi.write(b)]: the byte read back is dropped *)
  | ESpiXfer (out inp : byte)        (** [spi.write_readinto(out, buf)] *)
  | EScroll (n : Z)                  (** [display.scroll(n)] *)
  | EPrint                           (** [print('Hummingbird READY')] *)
  | EShow.                           (** [display.show(Image.FABULOUS)] *)

(** ** The world *)

Record world : Type := mkWorld {
  readyToSend : bool;
  rx : nat -> byte;        (** the byte the controller returns at exchange [n] *)
  nxfer : nat;             (** SPI byte exchanges performed so far *)
  trace : list event       (** observable events, oldest first *)
}.

Abbreviation HB := (ST world).

(** ** Primitives *)

Definition emit (e : event) : HB unit :=
  fun w => (Ok tt, mkWorld (readyToSend w) (rx w) (nxfer w) (trace w ++ [e])).

Definition sleep (ms : Z) : HB unit := emit (ESleepMs ms).
Definition sleep_us (us : Z) : HB unit := emit (ESleepUs us).
Definition write_digital (p : pin) (v : Z) : HB unit := emit (EDigital p v).

(** MicroPython's [write_analog] takes a duty value in [0..1023] and raises
    [ValueError] outside it. *)
Definition write_analog (p : pin) (v : Z) : HB unit :=
  if (0 <=? v) && (v <=? 1023) then emit (EAnalog p v) else raise (ValueError v).

Definition spi_init : HB unit := emit ESpiInit.
Definition display_scroll (n : Z) : HB unit := emit (EScroll n).

(** One duplex exchange: the controller's byte for this slot is clocked in
    while [out] is clocked out. *)
Definition spi_write (out : byte) : HB unit :=
  fun w => (Ok tt, mkWorld (readyToSend w) (rx w) (S (nxfer w))
                           (trace w ++ [ESpiWrite out])).

Definition spi_write_readinto (out : byte) : HB byte :=
  fun w => let inp := rx w (nxfer w) in
           (Ok inp, mkWorld (readyToSend w) (rx w) (S (nxfer w))
                            (trace w ++ [ESpiXfer out inp])).

Definition get_ready : HB bool := fun w => (Ok (readyToSend w), w).

Definition set_ready (b : bool) : HB unit :=
  fun w => (Ok tt, mkWorld b (rx w) (nxfer w) (trace w)).

(** [bytes([x])] *)
Definition bytes_of (x : Z) : HB byte :=
  match bytes1 x with
  | Some b => ret b
  | None => raise (ValueError x)
  end.

(** Unfold the primitives of a straight-line run. *)
Ltac hw_unfold :=
  unfold emit, sleep, sleep_us, write_digital, spi_init, display_scroll, spi_write,
    spi_write_readinto, get_ready, set_ready in *.

(** ** The Bus Transport contract (spec 4.1)

    A framed exchange: settle delay, strobe ([pin16]) low, the short
    delay, the exchanges separated by the long delay, the short delay,
    strobe high.  [framed xs] is the event sequence of a frame whose
    exchanges are [xs]. *)

Fixpoint frame_body (xs : list event) : list event :=
  match xs with
  | [] => []
  | [x] => [x]
  | x :: rest => x :: ESleepUs waitTime_2 :: frame_body rest
  end.

Definition framed (xs : list event) : list event :=
  [ESleepUs waitTime_Initial; EDigital pin16 0; ESleepUs waitTime_1]
    ++ frame_body xs ++ [ESleepUs waitTime_1; EDigital pin16 1].

(** The world after a straight-line run that emitted [evs], performed
    [k] exchanges and left the flag at [r]. *)
Definition advance (w : world) (r : bool) (k : nat) (evs : list event) : world :=
  mkWorld r (rx w) (k + nxfer w) (trace w ++ evs).

(** ** The strobe discipline (spec 4.1; glossary: the strobe is asserted
    low during a transfer)

    [strobe_run hi evs] follows the level of [pin16] through [evs] from
    level [hi] ([write_digital(v)] drives it high for [v <> 0]) and
    returns the final level, or [None] at an SPI exchange made while the
    strobe is high, which the controller would not sample. *)

Definition is_exchange (e : event) : bool :=
  match e with ESpiWrite _ | ESpiXfer _ _ => true | _ => false end.

Fixpoint strobe_run (hi : bool) (evs : list event) : option bool :=
  match evs with
  | [] => Some hi
  | EDigital pin16 v :: rest => strobe_run (negb (v =? 0)) rest
  | e :: rest => if is_exchange e && hi then None else strobe_run hi rest
  end.

(** ** Lemmas on worlds and traces *)

Lemma advance_nil (w : world) : readyToSend w = true -> advance w true 0 [] = w.
Proof. destruct w; simpl; intros ->. unfold advance; simpl. rewrite app_nil_r. reflexivity. Qed.

Lemma advance_advance (w : world) (r r' : bool) (k k' : nat) (evs evs' : list event) :
  advance (advance w r k evs) r' k' evs' = advance w r' (k' + k) (evs ++ evs').
Proof. unfold advance. simpl. rewrite <- app_assoc, Nat.add_assoc. reflexivity. Qed.

Lemma strobe_run_app (hi : bool) (a b : list event) :
  strobe_run hi (a ++ b) =
  match strobe_run hi a with Some h => strobe_run h b | None => None end.
Proof.
  revert hi. induction a as [|e a IH]; intros hi; [reflexivity|].
  destruct e as [| | [] | | | | | | |]; simpl; try apply IH; destruct hi; simpl; auto.
Qed.
