(* ===== verification/Encoder.v ===== *)
(** * Command Encoder: the actuator conversions of [src/hummingbird.py]

    The parameter byte of every actuator command, computed as the source
    computes it: inputs clamped with [if]s ([setLED]) or [max(lo, min(x,
    hi))] (the other setters), scaled with [int(x * k / d)], which
    truncates; the opcode byte [0xC0], [0xC3 + port] or [0xC5 + port].
    The theorems bound every byte to [range(256)] (so [bytes([x])] never
    raises), give the exact values, and compare them with the spec's
    [round] formulas. *)

From Stdlib Require Import ZArith List Bool Lia.
From S2P Require Import Prelude.
Import ListNotations.
Open Scope Z_scope.

(** ** Single LED ([setLED], lines 96-101) *)

(** [if (intensity > 100): intensity = 100; if (intensity < 0): intensity = 0] *)
Definition led_clamp (intensity : Z) : Z :=
  let intensity := if 100 <? intensity then 100 else intensity in
  if intensity <? 0 then 0 else intensity.

(** [intensityScaled = int((intensity * 255) / 100)] after the clamp. *)
Definition intensityScaled (intensity : Z) : Z :=
  py_int_div (led_clamp intensity * 255) 100.

(** [pin2.write_analog(intensityScaled * 4)] (ports 2 and 3). *)
Definition led_analog_value (intensity : Z) : Z := intensityScaled intensity * 4.

(** ** Tri-color LED ([setTriLED], lines 147-153) *)

(** [c = max(0, min(c, 100))] then [c = int(c * 255 / 100)]. *)
Definition tri_channel (c : Z) : Z := py_int_div (py_clamp 0 100 c * 255) 100.

(** [port_val = 0xC3 + port] *)
Definition tri_port_val (port : Z) : Z := 195 + port.

(** ** Position servo ([setPositionServo], lines 184-188) *)

(** [angle = max(0, min(angle, 180))], [angle_conv = int((angle * 254) / 180)] *)
Definition angle_conv (angle : Z) : Z := py_int_div (py_clamp 0 180 angle * 254) 180.

(** [port_val = 0xC5 + port] (both servo setters) *)
Definition servo_port_val (port : Z) : Z := 197 + port.

(** ** Rotation servo ([setRotationServo], lines 221-230) *)

(** [speed = max(-100, min(speed, 100))]; the stop code [255] when
    [speed > -10 and speed < 10], else [int((speed * 23 / 100) + 122)],
    whose exact value is [(23 * speed + 12200) / 100], truncated. *)
Definition speed_conv (speed : Z) : Z :=
  let speed := py_clamp (-100) 100 speed in
  if (-10 <? speed) && (speed <? 10) then 255
  else py_int_div (speed * 23 + 122 * 100) 100.

(** ** The spec's formulas (spec 4.3, 8), for comparison only *)

Definition spec_led_byte (intensity : Z) : Z := py_round_div (py_clamp 0 100 intensity * 255) 100.
Definition spec_angle_byte (angle : Z) : Z := py_round_div (py_clamp 0 180 angle * 254) 180.
Definition spec_speed_byte (speed : Z) : Z :=
  let speed := py_clamp (-100) 100 speed in
  if Z.abs speed <? 10 then 255 else py_round_div (speed * 23 + 122 * 100) 100.

(** ** Shared lemmas *)

Lemma led_clamp_py_clamp (x : Z) : led_clamp x = py_clamp 0 100 x.
Proof.
  unfold led_clamp, py_clamp.
  destruct (Z.ltb_spec 100 x); [|destruct (Z.ltb_spec x 0)]; simpl; lia.
Qed.

(** Scaling a clamped percentage or angle: [int(c * k / d)] is the floor
    and lies in [0 .. k]. *)
Lemma scaled_clamp_range (hi k x : Z) :
  0 < hi -> 0 <= k ->
  py_int_div (py_clamp 0 hi x * k) hi = py_clamp 0 hi x * k / hi /\
  0 <= py_int_div (py_clamp 0 hi x * k) hi <= k.
Proof.
  intros Hhi Hk. pose proof (py_clamp_range 0 hi x ltac:(lia)) as Hc.
  rewrite py_int_div_floor by nia.
  split; [reflexivity|]. split.
  - apply Z.div_pos; nia.
  - apply Z.div_le_upper_bound; nia.
Qed.

Lemma scaled_clamp_mono (hi k x y : Z) :
  0 < hi -> 0 <= k -> x <= y ->
  py_int_div (py_clamp 0 hi x * k) hi <= py_int_div (py_clamp 0 hi y * k) hi.
Proof.
  intros Hhi Hk Hxy.
  destruct (scaled_clamp_range hi k x Hhi Hk) as [-> _].
  destruct (scaled_clamp_range hi k y Hhi Hk) as [-> _].
  apply Z.div_le_mono; [lia|]. apply Z.mul_le_mono_nonneg_r; [lia|].
  apply py_clamp_mono. exact Hxy.
Qed.

Lemma intensityScaled_eq (x : Z) :
  intensityScaled x = py_int_div (py_clamp 0 100 x * 255) 100.
Proof. unfold intensityScaled. rewrite led_clamp_py_clamp. reflexivity. Qed.

Lemma speed_conv_cases (s : Z) :
  let c := py_clamp (-100) 100 s in
  (-10 < c < 10 /\ speed_conv s = 255) \/
  ((c <= -10 \/ 10 <= c) /\ speed_conv s = (c * 23 + 12200) / 100).
Proof.
  cbv zeta. pose proof (py_clamp_range (-100) 100 s ltac:(lia)).
  unfold speed_conv.
  destruct (Z.ltb_spec (-10) (py_clamp (-100) 100 s)),
    (Z.ltb_spec (py_clamp (-100) 100 s) 10); simpl;
    [left; lia | right; rewrite py_int_div_floor; lia ..].
Qed.

Lemma intensityScaled_range (x : Z) : 0 <= intensityScaled x <= 255.
Proof. rewrite intensityScaled_eq. apply (scaled_clamp_range 100 255 x); lia. Qed.

Lemma tri_channel_range (x : Z) : 0 <= tri_channel x <= 255.
Proof. apply (scaled_clamp_range 100 255 x); lia. Qed.

Lemma angle_conv_range (x : Z) : 0 <= angle_conv x <= 255.
Proof. pose proof (proj2 (scaled_clamp_range 180 254 x ltac:(lia) ltac:(lia))). unfold angle_conv. lia. Qed.

Lemma speed_conv_range (x : Z) : 0 <= speed_conv x <= 255.
Proof.
  pose proof (py_clamp_range (-100) 100 x ltac:(lia)).
  destruct (speed_conv_cases x) as [[_ ->]|[_ ->]]; [lia | hb_lia].
Qed.

Lemma tri_port_val_range (p : Z) : 1 <= p <= 2 -> 0 <= tri_port_val p <= 255.
Proof. unfold tri_port_val. lia. Qed.

Lemma servo_port_val_range (p : Z) : 1 <= p <= 4 -> 0 <= servo_port_val p <= 255.
Proof. unfold servo_port_val. lia. Qed.

Lemma led_analog_value_range (x : Z) : 0 <= led_analog_value x <= 1020.
Proof. unfold led_analog_value. pose proof (intensityScaled_range x). lia. Qed.

#[export] Hint Resolve intensityScaled_range tri_channel_range angle_conv_range
  speed_conv_range tri_port_val_range servo_port_val_range : hb.

(** ** Properties *)

(** C8: every parameter byte the setters compute lies in
    [range(256)] for every integer input, and the local LED duty value
    [intensityScaled * 4] lies in [0..1020], inside [write_analog]'s
    [0..1023]: the inputs are clamped before scaling. *)
Theorem encoded_params_in_range (x : Z) :
  0 <= intensityScaled x <= 255 /\
  0 <= led_analog_value x <= 1020 /\
  0 <= tri_channel x <= 255 /\
  0 <= angle_conv x <= 254 /\
  (speed_conv x = 255 \/ 99 <= speed_conv x <= 145).
Proof.
  pose proof (intensityScaled_range x). pose proof (led_analog_value_range x).
  pose proof (tri_channel_range x).
  pose proof (proj2 (scaled_clamp_range 180 254 x ltac:(lia) ltac:(lia))).
  pose proof (py_clamp_range (-100) 100 x ltac:(lia)).
  unfold angle_conv.
  destruct (speed_conv_cases x) as [[_ ->]|[_ ->]]; repeat split; try lia.
  right. hb_lia.
Qed.

(** C11: the rotation servo's byte is the stop code [255] exactly
    when the clamped speed is strictly between -10 and 10; otherwise it is
    [floor((23 * speed + 12200) / 100)], which spans [99 .. 145] with
    [speed = -100] giving 99 and [speed = 100] giving 145 (the comment at
    line 225 says 104 to 144). *)
Theorem speed_conv_spec (s : Z) :
  (speed_conv s = 255 <-> -10 < py_clamp (-100) 100 s < 10) /\
  (py_clamp (-100) 100 s <= -10 \/ 10 <= py_clamp (-100) 100 s ->
   speed_conv s = (py_clamp (-100) 100 s * 23 + 12200) / 100 /\
   99 <= speed_conv s <= 145) /\
  speed_conv (-100) = 99 /\ speed_conv 100 = 145.
Proof.
  pose proof (py_clamp_range (-100) 100 s ltac:(lia)).
  destruct (speed_conv_cases s) as [[Hb ->]|[Hb ->]].
  - split; [tauto|]. split; [lia|]. split; reflexivity.
  - split; [split; [intros; hb_lia | lia]|].
    split; [split; [reflexivity | hb_lia]|]. split; reflexivity.
Qed.

(** C19: the angle byte is monotone in the angle, the LED and
    tri-color bytes in the percentage, and the rotation byte in the speed
    on each side of the stop band. *)
Theorem conversions_monotone (x y : Z) :
  x <= y ->
  angle_conv x <= angle_conv y /\
  intensityScaled x <= intensityScaled y /\
  tri_channel x <= tri_channel y /\
  (10 <= x -> speed_conv x <= speed_conv y) /\
  (y <= -10 -> speed_conv x <= speed_conv y).
Proof.
  intros Hxy. unfold angle_conv, tri_channel. rewrite !intensityScaled_eq.
  split; [apply scaled_clamp_mono; lia|].
  split; [apply scaled_clamp_mono; lia|].
  split; [apply scaled_clamp_mono; lia|].
  pose proof (py_clamp_mono (-100) 100 x y Hxy).
  pose proof (py_clamp_range (-100) 100 x ltac:(lia)).
  pose proof (py_clamp_range (-100) 100 y ltac:(lia)).
  split; intros Hb;
    destruct (speed_conv_cases x) as [[Hx ->]|[Hx ->]];
    destruct (speed_conv_cases y) as [[Hy ->]|[Hy ->]];
    unfold py_clamp in *; try lia; apply Z.div_le_mono; lia.
Qed.

(** C17: the setters truncate where the spec rounds: the code's
    byte is never above the spec's [round] and at most one below it, and
    the two differ at intensity 1, angle 2 and speed -10. *)
Theorem code_truncates_spec_rounds (x : Z) :
  intensityScaled x <= spec_led_byte x <= intensityScaled x + 1 /\
  angle_conv x <= spec_angle_byte x <= angle_conv x + 1 /\
  (intensityScaled 1, spec_led_byte 1) = (2, 3) /\
  (angle_conv 2, spec_angle_byte 2) = (2, 3) /\
  (speed_conv (-10), spec_speed_byte (-10)) = (119, 120).
Proof.
  unfold spec_led_byte, spec_angle_byte, angle_conv. rewrite intensityScaled_eq.
  destruct (scaled_clamp_range 100 255 x) as [-> _]; try lia.
  destruct (scaled_clamp_range 180 254 x) as [-> _]; try lia.
  pose proof (py_round_div_bounds (py_clamp 0 100 x * 255) 100 ltac:(lia)).
  pose proof (py_round_div_bounds (py_clamp 0 180 x * 254) 180 ltac:(lia)).
  repeat split; try lia; reflexivity.
Qed.

(** C20: on the valid ports the opcodes of the different commands
    are pairwise distinct: [0xC0] (LED 1), [0xC4]-[0xC5] (tri-color),
    [0xC6]-[0xC9] (servos), [0xCB] (start-up), [0xCC] (sensor poll); so
    the opcode alone names the command and its port. *)
Theorem opcodes_distinct (p q : Z) :
  1 <= p <= 2 -> 1 <= q <= 4 ->
  tri_port_val p <> servo_port_val q /\
  ~ In (tri_port_val p) [192; 203; 204] /\
  ~ In (servo_port_val q) [192; 203; 204] /\
  (forall p', tri_port_val p = tri_port_val p' -> p = p') /\
  (forall q', servo_port_val q = servo_port_val q' -> q = q') /\
  0 <= tri_port_val p <= 255 /\ 0 <= servo_port_val q <= 255.
Proof.
  intros Hp Hq. unfold tri_port_val, servo_port_val. cbn [In].
  repeat split; intros; try intros [|[|[|[]]]]; lia.
Qed.

(** ** Witnesses *)

Lemma conversions_monotone_witness :
  angle_conv 45 <= angle_conv 90 /\ intensityScaled 45 <= intensityScaled 90 /\
  tri_channel 45 <= tri_channel 90 /\ (10 <= 45 -> speed_conv 45 <= speed_conv 90) /\
  (90 <= -10 -> speed_conv 45 <= speed_conv 90).
Proof. exact (conversions_monotone 45 90 ltac:(lia)). Defined.

Lemma opcodes_distinct_witness :
  tri_port_val 2 <> servo_port_val 1 /\
  ~ In (tri_port_val 2) [192; 203; 204] /\
  ~ In (servo_port_val 1) [192; 203; 204] /\
  (forall p', tri_port_val 2 = tri_port_val p' -> 2 = p') /\
  (forall q', servo_port_val 1 = servo_port_val q' -> 1 = q') /\
  0 <= tri_port_val 2 <= 255 /\ 0 <= servo_port_val 1 <= 255.
Proof. exact (opcodes_distinct 2 1 ltac:(lia) ltac:(lia)). Defined.
