(* ===== verification/Decoder.v ===== *)
(** * Sensor Decoder: the reading conversions of [src/hummingbird.py]

    [getSensor] (lines 304-311) and [getBattery] (line 344) turn the one
    byte they keep from the poll into a reading with Python's [round],
    which rounds half to even ([py_round_div]).  The sensor kind is the
    caller's integer, compared with [==] against the class constants
    [sensor_dial = 2], [sensor_distance = 3], [sensor_sound = 4]; every
    other integer takes the light/other branch. *)

From Stdlib Require Import ZArith List Bool Lia.
From S2P Require Import Prelude.
Import ListNotations.
Open Scope Z_scope.

(** ** Sensor identifiers (lines 44-48) *)

Definition sensor_light : Z := 1.
Definition sensor_dial : Z := 2.
Definition sensor_distance : Z := 3.
Definition sensor_sound : Z := 4.
Definition sensor_other : Z := 5.

(** ** Conversions *)

(** The [if sensor == 3 ... elif 4 ... elif 2 ... else] chain of
    [getSensor], applied to [int.from_bytes(vals[port - 1], 'big')]. *)
Definition sensor_value (sensor raw : Z) : Z :=
  if sensor =? 3 then py_round_div (raw * 117) 100
  else if sensor =? 4 then py_round_div (raw * 200) 255
  else if sensor =? 2 then Z.min (py_round_div (raw * 100) 230) 100
  else py_round_div (raw * 100) 255.

(** [round(int.from_bytes(batt, 'big') * 406 / 10)] *)
Definition battery_value (raw : Z) : Z := py_round_div (raw * 406) 10.

(** Rounding half up, the reading of [round] a tie-agnostic spec allows. *)
Definition round_half_up (n d : Z) : Z := (2 * n + d) / (2 * d).

(** [sensor_value] with every [round] read as rounding half up. *)
Definition sensor_value_half_up (sensor raw : Z) : Z :=
  if sensor =? 3 then round_half_up (raw * 117) 100
  else if sensor =? 4 then round_half_up (raw * 200) 255
  else if sensor =? 2 then Z.min (round_half_up (raw * 100) 230) 100
  else round_half_up (raw * 100) 255.

(** ** Shared lemmas *)

Lemma sensor_value_mono (s r1 r2 : Z) :
  r1 <= r2 -> sensor_value s r1 <= sensor_value s r2.
Proof.
  intros Hr. unfold sensor_value.
  destruct (s =? 3); [apply py_round_div_mono; lia|].
  destruct (s =? 4); [apply py_round_div_mono; lia|].
  destruct (s =? 2); [|apply py_round_div_mono; lia].
  pose proof (py_round_div_mono (r1 * 100) (r2 * 100) 230 ltac:(lia) ltac:(lia)). lia.
Qed.

Lemma sensor_value_nonneg (s r : Z) : 0 <= r -> 0 <= sensor_value s r.
Proof.
  intros Hr. unfold sensor_value.
  destruct (s =? 3); [apply py_round_div_nonneg; lia|].
  destruct (s =? 4); [apply py_round_div_nonneg; lia|].
  destruct (s =? 2); [|apply py_round_div_nonneg; lia].
  pose proof (py_round_div_nonneg (r * 100) 230 ltac:(lia) ltac:(lia)). lia.
Qed.

Lemma byte_check_eq (f g : Z -> Z) :
  forallb (fun v => f v =? g v) (map Z.of_nat (seq 0 256)) = true ->
  forall b : byte, f (byte_val b) = g (byte_val b).
Proof. intros H b. apply Z.eqb_eq, (forall_byte _ H). Qed.

Lemma distance_ties (b : byte) :
  py_round_div (byte_val b * 117) 100 <> round_half_up (byte_val b * 117) 100 <->
  In (byte_val b) [50; 250].
Proof.
  assert (H : forall b : byte,
    negb (py_round_div (byte_val b * 117) 100 =? round_half_up (byte_val b * 117) 100)
    = (byte_val b =? 50) || (byte_val b =? 250)).
  { intros b'. apply Bool.eqb_prop.
    apply (forall_byte (fun v => Bool.eqb
      (negb (py_round_div (v * 117) 100 =? round_half_up (v * 117) 100))
      ((v =? 50) || (v =? 250)))). vm_compute. reflexivity. }
  specialize (H b). cbn [In].
  destruct (Z.eqb_spec (py_round_div (byte_val b * 117) 100)
                       (round_half_up (byte_val b * 117) 100));
  destruct (Z.eqb_spec (byte_val b) 50), (Z.eqb_spec (byte_val b) 250); simpl in H; try discriminate; intuition lia.
Qed.

(** ** Properties *)


(** C18: Python's [round] rounds half to even.  For the battery and
    every sensor kind but distance no byte gives a tie, so the reading
    equals the half-up rounding; distance ([raw * 117 / 100]) ties at the
    bytes 50, 150 and 250, and differs from half-up exactly at 50 and 250
    (58.5 gives 58, 175.5 gives 176, 292.5 gives 292). *)
Theorem rounding_ties (s : Z) (b : byte) :
  battery_value (byte_val b) = round_half_up (byte_val b * 406) 10 /\
  (sensor_value s (byte_val b) <> sensor_value_half_up s (byte_val b) <->
   s = sensor_distance /\ In (byte_val b) [50; 250]) /\
  (sensor_value sensor_distance 50, sensor_value sensor_distance 150,
   sensor_value sensor_distance 250) = (58, 176, 292).
Proof.
  split; [apply (byte_check_eq battery_value (fun v => round_half_up (v * 406) 10)); vm_compute; reflexivity|].
  split; [|reflexivity].
  unfold sensor_value, sensor_value_half_up, sensor_distance.
  destruct (Z.eqb_spec s 3) as [->|Hs3]; [rewrite distance_ties; intuition|].
  assert (Hne : forall x y : Z, x = y -> (x <> y <-> False)) by (intros; subst; tauto).
  rewrite Hne; [intuition|].
  destruct (s =? 4); [|destruct (s =? 2)];
    [apply (byte_check_eq (fun v => py_round_div (v * 200) 255) (fun v => round_half_up (v * 200) 255))
    |apply (byte_check_eq (fun v => Z.min (py_round_div (v * 100) 230) 100) (fun v => Z.min (round_half_up (v * 100) 230) 100))
    |apply (byte_check_eq (fun v => py_round_div (v * 100) 255) (fun v => round_half_up (v * 100) 255))];
    vm_compute; reflexivity.
Qed.
