(* ===== verification/PyFloat.v ===== *)
(** * Python floats in the conversions of [src/hummingbird.py]

    The driver's conversions divide with Python's [/], which returns a
    binary64 float, and then apply [int] (truncation) or [round] (ties to
    even) to the float.  This file models those expressions literally on
    [SpecFloat]'s binary64 ([prec = 53], [emax = 1024]): Python converts
    the integer operands to floats exactly and rounds each operation to
    nearest, ties to even.  [int] of an infinity or a NaN raises, which is
    [None] here.  The theorems show that on every input (clamped, or a
    byte) the float computation gives the exact rational result used by
    [Encoder] and [Decoder]. *)

From Stdlib Require Import ZArith List Bool Lia.
From Stdlib Require Import Floats.SpecFloat.
From S2P Require Import Prelude Encoder Decoder.
Import ListNotations.
Open Scope Z_scope.

(** ** Binary64 *)

Definition prec : Z := 53.
Definition emax : Z := 1024.

(** [float(z)] for an integer [z]. *)
Definition float_of_int (z : Z) : spec_float := binary_normalize prec emax z 0 false.

(** [x / y] and [x + y] on floats. *)
Definition fdiv (x y : spec_float) : spec_float := SFdiv prec emax x y.
Definition fadd (x y : spec_float) : spec_float := SFadd prec emax x y.

(** Python's true division of two integers: [a / b]. *)
Definition py_truediv (a b : Z) : spec_float := fdiv (float_of_int a) (float_of_int b).

(** The value [(-1)^s * m * 2^e] of a finite float, as a signed
    numerator over a power of two. *)
Definition apply_sign (s : bool) (z : Z) : Z := if s then - z else z.

(** [int(f)]: truncation toward zero. *)
Definition py_int_of_float (f : spec_float) : option Z :=
  match f with
  | S754_zero _ => Some 0
  | S754_finite s m e =>
      Some (apply_sign s (if 0 <=? e then Z.pos m * 2 ^ e else Z.pos m / 2 ^ (- e)))
  | _ => None
  end.

(** [round(f)]: to the nearest integer, ties to even. *)
Definition py_round_float (f : spec_float) : option Z :=
  match f with
  | S754_zero _ => Some 0
  | S754_finite s m e =>
      Some (apply_sign s (if 0 <=? e then Z.pos m * 2 ^ e else py_round_div (Z.pos m) (2 ^ (- e))))
  | _ => None
  end.

(** ** The conversions as written *)

(** [int((intensity * 255) / 100)] (line 101) *)
Definition intensityScaled_float (intensity : Z) : option Z :=
  py_int_of_float (py_truediv (led_clamp intensity * 255) 100).

(** [int(red * 255 / 100)] (lines 151-153) *)
Definition tri_channel_float (c : Z) : option Z :=
  py_int_of_float (py_truediv (py_clamp 0 100 c * 255) 100).

(** [int((angle * 254) / 180)] (line 187) *)
Definition angle_conv_float (angle : Z) : option Z :=
  py_int_of_float (py_truediv (py_clamp 0 180 angle * 254) 180).

(** [int((speed * 23 / 100) + 122)] (line 230) *)
Definition speed_conv_float (speed : Z) : option Z :=
  let speed := py_clamp (-100) 100 speed in
  if (-10 <? speed) && (speed <? 10) then Some 255
  else py_int_of_float (fadd (py_truediv (speed * 23) 100) (float_of_int 122)).

(** The [getSensor] chain (lines 304-311) on the float quotients. *)
Definition sensor_value_float (sensor raw : Z) : option Z :=
  if sensor =? 3 then py_round_float (py_truediv (raw * 117) 100)
  else if sensor =? 4 then py_round_float (py_truediv (raw * 200) 255)
  else if sensor =? 2 then option_map (fun r => Z.min r 100) (py_round_float (py_truediv (raw * 100) 230))
  else py_round_float (py_truediv (raw * 100) 255).

(** [round(int.from_bytes(batt, 'big') * 406 / 10)] (line 344) *)
Definition battery_value_float (raw : Z) : option Z :=
  py_round_float (py_truediv (raw * 406) 10).

Definition opt_Z_eqb (a b : option Z) : bool :=
  match a, b with
  | Some x, Some y => x =? y
  | None, None => true
  | _, _ => false
  end.

(** ** Finite checks *)

Lemma opt_Z_eqb_eq (a b : option Z) : opt_Z_eqb a b = true -> a = b.
Proof. destruct a, b; simpl; intros H; try discriminate; [apply Z.eqb_eq in H; subst|]; reflexivity. Qed.

(** A float expression [f] agrees with an exact one [g] on a range when
    it does on each of its points. *)
Lemma range_agree (lo : Z) (n : nat) (f : Z -> option Z) (g : Z -> Z) :
  forallb (fun z => opt_Z_eqb (f z) (Some (g z))) (map (fun i => lo + Z.of_nat i) (seq 0 n)) = true ->
  forall z, lo <= z < lo + Z.of_nat n -> f z = Some (g z).
Proof. intros H z Hz. apply opt_Z_eqb_eq, (forall_range lo n _ H z Hz). Qed.

Lemma byte_agree (f : Z -> option Z) (g : Z -> Z) :
  forallb (fun z => opt_Z_eqb (f z) (Some (g z))) (map Z.of_nat (seq 0 256)) = true ->
  forall b : byte, f (byte_val b) = Some (g (byte_val b)).
Proof. intros H b. apply opt_Z_eqb_eq, (forall_byte _ H b). Qed.

(** The clamps make both models functions of the clamped value. *)
Lemma speed_conv_float_clamp (x : Z) :
  speed_conv_float x = speed_conv_float (py_clamp (-100) 100 x) /\
  speed_conv x = speed_conv (py_clamp (-100) 100 x).
Proof.
  unfold speed_conv_float, speed_conv.
  rewrite (py_clamp_id (-100) 100 (py_clamp (-100) 100 x)) by (apply py_clamp_range; lia).
  split; reflexivity.
Qed.

(** ** Properties *)

(** C21: the actuator conversions computed with Python floats, as the
    source writes them ([int(x * k / d)], [int(speed * 23 / 100 + 122)]),
    never overflow or give NaN and equal the exact truncated quotients of
    [Encoder] for every integer input. *)
Theorem float_conversions_exact (x : Z) :
  intensityScaled_float x = Some (intensityScaled x) /\
  tri_channel_float x = Some (tri_channel x) /\
  angle_conv_float x = Some (angle_conv x) /\
  speed_conv_float x = Some (speed_conv x).
Proof.
  pose proof (py_clamp_range 0 100 x ltac:(lia)).
  pose proof (py_clamp_range 0 180 x ltac:(lia)).
  pose proof (py_clamp_range (-100) 100 x ltac:(lia)).
  pose proof (led_clamp_py_clamp x).
  split; [|split; [|split]].
  - exact (range_agree 0 101 (fun c => py_int_of_float (py_truediv (c * 255) 100))
             (fun c => py_int_div (c * 255) 100) ltac:(vm_compute; reflexivity)
             (led_clamp x) ltac:(lia)).
  - exact (range_agree 0 101 (fun c => py_int_of_float (py_truediv (c * 255) 100))
             (fun c => py_int_div (c * 255) 100) ltac:(vm_compute; reflexivity)
             (py_clamp 0 100 x) ltac:(lia)).
  - exact (range_agree 0 181 (fun c => py_int_of_float (py_truediv (c * 254) 180))
             (fun c => py_int_div (c * 254) 180) ltac:(vm_compute; reflexivity)
             (py_clamp 0 180 x) ltac:(lia)).
  - destruct (speed_conv_float_clamp x) as [-> ->].
    exact (range_agree (-100) 201 speed_conv_float speed_conv ltac:(vm_compute; reflexivity)
             (py_clamp (-100) 100 x) ltac:(lia)).
Qed.

(** C22: the readings computed with Python floats ([round] of the float
    quotient) equal the exact [Decoder] readings on every byte, for every
    sensor kind and for the battery. *)
Theorem float_readings_exact (sensor : Z) (b : byte) :
  sensor_value_float sensor (byte_val b) = Some (sensor_value sensor (byte_val b)) /\
  battery_value_float (byte_val b) = Some (battery_value (byte_val b)).
Proof.
  split; [|exact (byte_agree battery_value_float battery_value ltac:(vm_compute; reflexivity) b)].
  unfold sensor_value_float, sensor_value.
  destruct (sensor =? 3); [|destruct (sensor =? 4); [|destruct (sensor =? 2)]];
    [exact (byte_agree (fun r => py_round_float (py_truediv (r * 117) 100))
              (fun r => py_round_div (r * 117) 100) ltac:(vm_compute; reflexivity) b)
    |exact (byte_agree (fun r => py_round_float (py_truediv (r * 200) 255))
              (fun r => py_round_div (r * 200) 255) ltac:(vm_compute; reflexivity) b)
    |exact (byte_agree (fun r => option_map (fun v => Z.min v 100) (py_round_float (py_truediv (r * 100) 230)))
              (fun r => Z.min (py_round_div (r * 100) 230) 100) ltac:(vm_compute; reflexivity) b)
    |exact (byte_agree (fun r => py_round_float (py_truediv (r * 100) 255))
              (fun r => py_round_div (r * 100) 255) ltac:(vm_compute; reflexivity) b)].
Qed.
