(* ===== verification/Gate.v ===== *)
(** * Readiness Gate: the waits on [hummingbird.readyToSend]

    Every operation of [src/hummingbird.py] opens with the coarse wait

      [timeout = 0; while (not readyToSend and timeout < 25): sleep(10); timeout += 1]

    and, once its guard has passed, spins with

      [while (not readyToSend): sleep_us(10)]

    before it clears the flag.  Both loops are [Fixpoint]s on a fuel
    argument; running out of fuel is the outcome [Hang].  The coarse loop
    needs 26 rounds from [timeout = 0] (25 sleeps and the final test);
    the spin loop returns in one round when the flag is set and never
    returns when it is clear and no other task runs. *)

From Stdlib Require Import ZArith List Bool Lia.
From S2P Require Import Prelude Hardware.
Import ListNotations.
Open Scope Z_scope.
Open Scope hb_scope.

(** ** The loops *)

Fixpoint coarse_wait (fuel : nat) (timeout : Z) : HB Z :=
  match fuel with
  | O => fun w => (Hang, w)
  | S f =>
      r <- get_ready ;;
      if negb r && (timeout <? 25) then
        sleep 10 ;; coarse_wait f (timeout + 1)
      else ret timeout
  end.

Fixpoint spin_wait (fuel : nat) : HB unit :=
  match fuel with
  | O => fun w => (Hang, w)
  | S f =>
      r <- get_ready ;;
      if negb r then sleep_us 10 ;; spin_wait f else ret tt
  end.

(** Fuel that lets the coarse loop run to its exit from [timeout = 0]. *)
Definition coarse_fuel : nat := 26.

(** ** Worlds after the loops *)

Definition sleeps_ms (n : nat) : list event := repeat (ESleepMs 10) n.
Definition sleeps_us (n : nat) : list event := repeat (ESleepUs 10) n.

Definition with_events (w : world) (evs : list event) : world :=
  mkWorld (readyToSend w) (rx w) (nxfer w) (trace w ++ evs).

(** Whether a trace contains a coarse-wait sleep ([sleep(ms)]). *)
Definition waits_ms (evs : list event) : bool :=
  existsb (fun e => match e with ESleepMs _ => true | _ => false end) evs.

(** ** The gate contract of an operation

    What every operation taking the gate promises its callers, whatever
    its arguments: with the flag clear (and no other task to set it) it
    sleeps 10 ms 25 times and returns its default [d], touching nothing
    else; with the flag set it returns without a coarse sleep, leaves the
    flag set, and every SPI exchange it makes happens with the strobe low,
    the strobe being high again at its end.  [Driver] gives an instance
    for each operation; [Session] proves sequences of calls against the
    class alone. *)
Class GatedOp {A : Type} (op : nat -> HB A) (d : A) : Prop := {
  gated_clear fuel w :
    (coarse_fuel <= fuel)%nat -> readyToSend w = false ->
    op fuel w = (Ok d, with_events w (sleeps_ms 25));
  gated_ready fuel w :
    (coarse_fuel <= fuel)%nat -> readyToSend w = true ->
    exists a k evs, op fuel w = (Ok a, advance w true k evs) /\
      strobe_run true evs = Some true /\ waits_ms evs = false
}.

Lemma with_events_nil (w : world) : with_events w [] = w.
Proof. destruct w. unfold with_events. simpl. rewrite app_nil_r. reflexivity. Qed.

(** ** Running the loops *)

(** With more fuel than the [25 - timeout] rounds left, the coarse wait
    returns at once when the flag is set, and otherwise sleeps 10 ms
    [25 - timeout] times and returns 25 with the flag still clear. *)
Lemma coarse_wait_run (fuel : nat) (t : Z) (w : world) :
  0 <= t <= 25 -> (Z.to_nat (25 - t) < fuel)%nat ->
  coarse_wait fuel t w =
  if readyToSend w then (Ok t, w)
  else (Ok 25, with_events w (sleeps_ms (Z.to_nat (25 - t)))).
Proof.
  revert t w. induction fuel as [|f IH]; intros t w Ht Hf; [lia|].
  unfold coarse_wait; fold coarse_wait. unfold bind, get_ready. hb_simpl.
  destruct (readyToSend w) eqn:R; hb_simpl; [reflexivity|].
  destruct (Z.ltb_spec t 25); hb_simpl.
  - rewrite IH by lia. hb_simpl. rewrite R.
    replace (Z.to_nat (25 - t)) with (S (Z.to_nat (25 - (t + 1)))) by lia.
    unfold with_events, sleeps_ms. hb_simpl. rewrite R, <- app_assoc. reflexivity.
  - replace t with 25 by lia. rewrite with_events_nil. reflexivity.
Qed.

Lemma coarse_wait_ready (fuel : nat) (w : world) :
  (coarse_fuel <= fuel)%nat -> readyToSend w = true -> coarse_wait fuel 0 w = (Ok 0, w).
Proof.
  intros Hf R. rewrite coarse_wait_run by (unfold coarse_fuel in Hf; lia). now rewrite R.
Qed.

Lemma coarse_wait_clear (fuel : nat) (w : world) :
  (coarse_fuel <= fuel)%nat -> readyToSend w = false ->
  coarse_wait fuel 0 w = (Ok 25, with_events w (sleeps_ms 25)).
Proof.
  intros Hf R. rewrite coarse_wait_run by (unfold coarse_fuel in Hf; lia). now rewrite R.
Qed.

Lemma spin_wait_ready (fuel : nat) (w : world) :
  (1 <= fuel)%nat -> readyToSend w = true -> spin_wait fuel w = (Ok tt, w).
Proof.
  intros Hf R. destruct fuel as [|f]; [lia|].
  simpl. unfold bind, get_ready. rewrite R. reflexivity.
Qed.

(** ** The prefix every operation shares

    [timeout = 0; while ...: sleep(10); ...; if (guard and readyToSend):]
    with the flag set the body runs at once when the guard holds; with
    the flag clear the operation sleeps 250 ms and takes the [else]. *)

Lemma gate_prefix_ready {A} (fuel : nat) (g : bool) (body : HB A) (d : A) (w : world) :
  (coarse_fuel <= fuel)%nat -> readyToSend w = true ->
  (_ <- coarse_wait fuel 0 ;; r <- get_ready ;; if g && r then body else ret d) w =
  (if g then body w else (Ok d, w)).
Proof.
  intros Hf R. rewrite (bind_Ok _ _ _ _ _ (coarse_wait_ready fuel w Hf R)).
  unfold bind, get_ready. rewrite R, andb_true_r. destruct g; reflexivity.
Qed.

Lemma gate_prefix_clear {A} (fuel : nat) (g : bool) (body : HB A) (d : A) (w : world) :
  (coarse_fuel <= fuel)%nat -> readyToSend w = false ->
  (_ <- coarse_wait fuel 0 ;; r <- get_ready ;; if g && r then body else ret d) w =
  (Ok d, with_events w (sleeps_ms 25)).
Proof.
  intros Hf R. rewrite (bind_Ok _ _ _ _ _ (coarse_wait_clear fuel w Hf R)).
  unfold bind, get_ready. cbn [readyToSend with_events]. rewrite R, andb_false_r.
  reflexivity.
Qed.

(** The same prefix without a port guard ([getBattery]). *)
Lemma gate_prefix_ready_noguard {A} (fuel : nat) (body : HB A) (d : A) (w : world) :
  (coarse_fuel <= fuel)%nat -> readyToSend w = true ->
  (_ <- coarse_wait fuel 0 ;; r <- get_ready ;; if r then body else ret d) w = body w.
Proof.
  intros Hf R. rewrite (bind_Ok _ _ _ _ _ (coarse_wait_ready fuel w Hf R)).
  unfold bind, get_ready. rewrite R. reflexivity.
Qed.

Lemma gate_prefix_clear_noguard {A} (fuel : nat) (body : HB A) (d : A) (w : world) :
  (coarse_fuel <= fuel)%nat -> readyToSend w = false ->
  (_ <- coarse_wait fuel 0 ;; r <- get_ready ;; if r then body else ret d) w =
  (Ok d, with_events w (sleeps_ms 25)).
Proof.
  intros Hf R. rewrite (bind_Ok _ _ _ _ _ (coarse_wait_clear fuel w Hf R)).
  unfold bind, get_ready. cbn [readyToSend with_events]. rewrite R. reflexivity.
Qed.

(** The spin wait and the clearing of the flag, from a set flag. *)
Lemma spin_then_clear {A} (fuel : nat) (k : HB A) (w : world) :
  (1 <= fuel)%nat -> readyToSend w = true ->
  (spin_wait fuel ;; set_ready false ;; k) w = k (mkWorld false (rx w) (nxfer w) (trace w)).
Proof.
  intros Hf R. rewrite (bind_Ok _ _ _ _ _ (spin_wait_ready fuel w Hf R)). reflexivity.
Qed.

(** ** Properties *)

(** C15: the unbounded phase of the gate never times out: when the
    flag is clear and no other task runs, the spin wait is still sleeping
    10 us at a time when any fuel runs out. *)
Theorem spin_wait_never_returns_alone (fuel : nat) (w : world) :
  readyToSend w = false -> spin_wait fuel w = (Hang, with_events w (sleeps_us fuel)).
Proof.
  revert w. induction fuel as [|f IH]; intros w R.
  - simpl. rewrite with_events_nil. reflexivity.
  - simpl. unfold bind, get_ready. rewrite R. simpl.
    rewrite IH by exact R. unfold with_events, sleeps_us. simpl.
    rewrite <- app_assoc. reflexivity.
Qed.

(** ** Witnesses *)

Lemma spin_wait_never_returns_alone_witness :
  spin_wait 3 (mkWorld false (fun _ => Byte.x00) 0 []) =
  (Hang, with_events (mkWorld false (fun _ => Byte.x00) 0 []) (sleeps_us 3)).
Proof. exact (spin_wait_never_returns_alone 3 (mkWorld false (fun _ => Byte.x00) 0 []) eq_refl). Defined.
