(* ===== verification/Driver.v ===== *)
(** * The operations of [src/hummingbird.py]

    The seven static methods of class [hummingbird], each the whole
    handler: the coarse wait, the guard (port range and [readyToSend]),
    the parameter conversions, the spin wait, the clearing of the flag,
    the framed SPI exchange with every delay, the setting of the flag and
    the returned value.  Each takes the fuel of its two loops.  Python's
    default arguments ([red = 50], [angle = 90], ...) are the caller's
    business and are not modelled; every argument is explicit. *)

From Stdlib Require Import ZArith List Bool Lia.
From Stdlib Require Import Strings.Byte.
From S2P Require Import Prelude Hardware Encoder Decoder Gate.
Import ListNotations.
Open Scope Z_scope.
Open Scope hb_scope.

(** ** Helpers for the statements the source repeats *)

(** [spi.write(bytes([x]))] *)
Definition spi_write_int (x : Z) : HB unit := b <- bytes_of x ;; spi_write b.

(** [vals[i]] on a Python list: a negative index counts from the end
    ([vals[-1]] is the last element); [IndexError] outside
    [-len(vals) .. len(vals) - 1]. *)
Definition py_index {A} (l : list A) (i : Z) : HB A :=
  let j := if i <? 0 then Z.of_nat (length l) + i else i in
  if j <? 0 then raise (IndexError i)
  else match nth_error l (Z.to_nat j) with
       | Some a => ret a
       | None => raise (IndexError i)
       end.

(** [spi.write_readinto(out, vals[i])]: the byte read replaces [vals[i]]. *)
Definition readinto (vals : list byte) (i : nat) (out : byte) : HB (list byte) :=
  b <- spi_write_readinto out ;;
  ret (firstn i vals ++ [b] ++ skipn (S i) vals).

(** ** [startHummingbird] (lines 51-79) *)

Definition startHummingbird : HB unit :=
  write_analog pin0 0 ;;
  sleep waitTime_Start ;;
  write_digital pin16 1 ;;
  spi_init ;;
  sleep_us waitTime_Initial ;;
  write_digital pin16 0 ;;
  sleep_us waitTime_1 ;;
  spi_write Byte.xcb ;;
  sleep_us waitTime_2 ;;
  spi_write Byte.xff ;;
  sleep_us waitTime_2 ;;
  spi_write Byte.xff ;;
  sleep_us waitTime_2 ;;
  spi_write Byte.xff ;;
  sleep_us waitTime_1 ;;
  write_digital pin16 1 ;;
  set_ready true ;;
  write_analog pin2 0 ;;
  write_analog pin8 0 ;;
  emit EPrint ;;
  emit EShow.

(** ** [setLED] (lines 82-128) *)

Definition setLED (fuel : nat) (port intensity : Z) : HB unit :=
  _ <- coarse_wait fuel 0 ;;
  r <- get_ready ;;
  if (1 <=? port) && (port <=? 3) && r then
    let intensityScaled := intensityScaled intensity in
    spin_wait fuel ;;
    set_ready false ;;
    (if port =? 1 then
       display_scroll 1 ;;
       sleep_us waitTime_Initial ;;
       write_digital pin16 0 ;;
       sleep_us waitTime_1 ;;
       spi_write Byte.xc0 ;;
       sleep_us waitTime_2 ;;
       spi_write_int intensityScaled ;;
       sleep_us waitTime_2 ;;
       spi_write Byte.xff ;;
       sleep_us waitTime_2 ;;
       spi_write Byte.xff ;;
       sleep_us waitTime_1 ;;
       write_digital pin16 1
     else if port =? 2 then
       display_scroll 2 ;;
       write_analog pin2 (intensityScaled * 4)
     else if port =? 3 then
       display_scroll 3 ;;
       write_analog pin8 (intensityScaled * 4)
     else ret tt) ;;
    set_ready true
  else ret tt.

(** ** [setTriLED] (lines 131-170) *)

Definition setTriLED (fuel : nat) (port red green blue : Z) : HB unit :=
  _ <- coarse_wait fuel 0 ;;
  r <- get_ready ;;
  if (1 <=? port) && (port <=? 2) && r then
    let port_val := tri_port_val port in
    let red := tri_channel red in
    let green := tri_channel green in
    let blue := tri_channel blue in
    spin_wait fuel ;;
    set_ready false ;;
    sleep_us waitTime_Initial ;;
    write_digital pin16 0 ;;
    sleep_us waitTime_1 ;;
    spi_write_int port_val ;;
    sleep_us waitTime_2 ;;
    spi_write_int red ;;
    sleep_us waitTime_2 ;;
    spi_write_int green ;;
    sleep_us waitTime_2 ;;
    spi_write_int blue ;;
    sleep_us waitTime_1 ;;
    write_digital pin16 1 ;;
    set_ready true
  else ret tt.

(** ** [setPositionServo] (lines 173-205) *)

Definition setPositionServo (fuel : nat) (port angle : Z) : HB unit :=
  _ <- coarse_wait fuel 0 ;;
  r <- get_ready ;;
  if (1 <=? port) && (port <=? 4) && r then
    let angle_conv := angle_conv angle in
    let port_val := servo_port_val port in
    spin_wait fuel ;;
    set_ready false ;;
    sleep_us waitTime_Initial ;;
    write_digital pin16 0 ;;
    sleep_us waitTime_1 ;;
    spi_write_int port_val ;;
    sleep_us waitTime_2 ;;
    spi_write_int angle_conv ;;
    sleep_us waitTime_2 ;;
    spi_write_int 255 ;;
    sleep_us waitTime_2 ;;
    spi_write_int 255 ;;
    sleep_us waitTime_1 ;;
    write_digital pin16 1 ;;
    set_ready true
  else ret tt.

(** ** [setRotationServo] (lines 208-249) *)

Definition setRotationServo (fuel : nat) (port speed : Z) : HB unit :=
  _ <- coarse_wait fuel 0 ;;
  r <- get_ready ;;
  if (1 <=? port) && (port <=? 4) && r then
    let speed_conv := speed_conv speed in
    let port_val := servo_port_val port in
    spin_wait fuel ;;
    set_ready false ;;
    sleep_us waitTime_Initial ;;
    write_digital pin16 0 ;;
    sleep_us waitTime_1 ;;
    spi_write_int port_val ;;
    sleep_us waitTime_2 ;;
    spi_write_int speed_conv ;;
    sleep_us waitTime_2 ;;
    spi_write_int 255 ;;
    sleep_us waitTime_2 ;;
    spi_write_int 255 ;;
    sleep_us waitTime_1 ;;
    write_digital pin16 1 ;;
    set_ready true
  else ret tt.

(** ** [getSensor] (lines 252-313) *)

Definition getSensor (fuel : nat) (sensor port : Z) : HB Z :=
  _ <- coarse_wait fuel 0 ;;
  r <- get_ready ;;
  if (1 <=? port) && (port <=? 3) && r then
    let vals := [Byte.x00; Byte.x00; Byte.x00; Byte.x00] in
    spin_wait fuel ;;
    set_ready false ;;
    sleep_us waitTime_Initial ;;
    write_digital pin16 0 ;;
    sleep_us waitTime_1 ;;
    vals <- readinto vals 0 Byte.xcc ;;
    sleep_us waitTime_2 ;;
    vals <- readinto vals 1 Byte.x66 ;;
    sleep_us waitTime_2 ;;
    vals <- readinto vals 2 Byte.x77 ;;
    sleep_us waitTime_2 ;;
    vals <- readinto vals 3 Byte.x88 ;;
    sleep_us waitTime_1 ;;
    vals <- readinto vals 0 Byte.x55 ;;
    sleep_us waitTime_1 ;;
    vals <- readinto vals 1 Byte.x66 ;;
    sleep_us waitTime_1 ;;
    write_digital pin16 1 ;;
    set_ready true ;;
    v <- py_index vals (port - 1) ;;
    ret (sensor_value sensor (byte_val v))
  else ret 0.

(** ** [getBattery] (lines 316-346) *)

Definition getBattery (fuel : nat) : HB Z :=
  _ <- coarse_wait fuel 0 ;;
  r <- get_ready ;;
  if r then
    spin_wait fuel ;;
    set_ready false ;;
    sleep_us waitTime_Initial ;;
    write_digital pin16 0 ;;
    sleep_us waitTime_1 ;;
    _ <- spi_write_readinto Byte.x55 ;;
    sleep_us waitTime_2 ;;
    _ <- spi_write_readinto Byte.x66 ;;
    sleep_us waitTime_2 ;;
    _ <- spi_write_readinto Byte.x77 ;;
    sleep_us waitTime_2 ;;
    batt <- spi_write_readinto Byte.x88 ;;
    sleep_us waitTime_1 ;;
    write_digital pin16 1 ;;
    set_ready true ;;
    ret (battery_value (byte_val batt))
  else ret 0.

(** ** The frames the operations send *)

(** A command of parameter bytes [xs], each written with
    [spi.write(bytes([x]))], as a framed Bus Transport exchange. *)
Definition command_frame (xs : list Z) : list event :=
  framed (map (fun x => ESpiWrite (byte_of_Z x)) xs).

(** ** The sensor poll *)

(** The events of [getSensor]'s poll when the controller returns [r n]
    at exchange [n]: six exchanges [0xCC, 0x66, 0x77, 0x88, 0x55, 0x66]
    with the delays of lines 287-302. *)
Definition sensor_poll_events (r : nat -> byte) (n : nat) : list event :=
  [ESleepUs waitTime_Initial; EDigital pin16 0; ESleepUs waitTime_1;
   ESpiXfer Byte.xcc (r n); ESleepUs waitTime_2;
   ESpiXfer Byte.x66 (r (1 + n)%nat); ESleepUs waitTime_2;
   ESpiXfer Byte.x77 (r (2 + n)%nat); ESleepUs waitTime_2;
   ESpiXfer Byte.x88 (r (3 + n)%nat); ESleepUs waitTime_1;
   ESpiXfer Byte.x55 (r (4 + n)%nat); ESleepUs waitTime_1;
   ESpiXfer Byte.x66 (r (5 + n)%nat); ESleepUs waitTime_1;
   EDigital pin16 1].

(** The exchange whose reply [vals[port - 1]] holds at the end of the
    poll: [vals[0]] and [vals[1]] are overwritten by the fifth and sixth
    exchanges, [vals[2]] keeps the third. *)
Definition sensor_slot (port : Z) : nat :=
  if port =? 1 then 4%nat else if port =? 2 then 5%nat else 2%nat.

(** Worlds used by the witnesses: a fresh trace, the flag as given, the
    controller answering [answer n] at exchange [n]. *)
Definition sample_world (ready : bool) (answer : nat -> byte) : world :=
  mkWorld ready answer 0 [].

(** ** Evaluation *)

(** Finish a straight-line run: evaluate the actions and reassociate the
    trace. *)
Ltac run_straight :=
  unfold advance, command_frame, framed, with_events; hw_unfold; hb_eval_tests; hb_simpl;
  rewrite <- ?app_assoc; reflexivity.

(** Decide an operation's port test [(lo <=? port) && (port <=? hi)]
    from the hypotheses. *)
Ltac guard_true :=
  match goal with
  | |- context [((?a <=? ?p) && (?p <=? ?k))%Z] =>
      replace ((a <=? p) && (p <=? k))%Z with true by (symmetry; apply andb_true_iff; lia)
  end.

Ltac bytes_in_range :=
  unfold spi_write_int, bytes_of;
  repeat match goal with
  | |- context [bytes1 ?x] => rewrite (bytes1_byte_of_Z x) by
      (solve [auto with hb | lia])
  end.

(** ** The gate contract of each operation *)

Lemma guard_range (lo hi p : Z) : ((lo <=? p) && (p <=? hi))%Z = true -> (lo <= p <= hi)%Z.
Proof. rewrite andb_true_iff, !Z.leb_le. tauto. Qed.

Lemma analog_cond_true (v : Z) : 0 <= v <= 1023 -> (0 <=? v) && (v <=? 1023) = true.
Proof. intros. apply andb_true_iff. lia. Qed.

(** After the gate, a call whose guard passed: evaluate the transaction
    and check its strobe discipline. *)
Ltac gated_valid k :=
  rewrite spin_then_clear by (unfold coarse_fuel in *; lia || assumption);
  bytes_in_range; eexists; exists k; eexists; split; [run_straight | split; reflexivity].

(** A call whose guard failed returns at once. *)
Ltac gated_invalid :=
  do 3 eexists; split; [rewrite advance_nil by assumption; reflexivity | split; reflexivity].

(** Split [GatedOp] into its two laws and take the clear-flag one. *)
Ltac gated_split op :=
  split; intros fuel w Hf R; unfold op;
  [ first [ rewrite gate_prefix_clear by assumption
          | rewrite gate_prefix_clear_noguard by assumption ]; reflexivity
  | first [ rewrite gate_prefix_ready by assumption
          | rewrite gate_prefix_ready_noguard by assumption ] ].

#[export] Instance setLED_gated (port intensity : Z) :
  GatedOp (fun fuel => setLED fuel port intensity) tt.
Proof.
  gated_split setLED.
  destruct ((1 <=? port) && (port <=? 3)) eqn:G; [apply guard_range in G|gated_invalid].
  destruct (Z.eqb_spec port 1) as [->|H1]; [gated_valid 4%nat|].
  unfold write_analog. rewrite analog_cond_true by (pose proof (intensityScaled_range intensity); lia).
  destruct (Z.eqb_spec port 2) as [->|H2]; [gated_valid 0%nat|]. replace port with 3 by lia.
  gated_valid 0%nat.
Qed.

#[export] Instance setTriLED_gated (port red green blue : Z) :
  GatedOp (fun fuel => setTriLED fuel port red green blue) tt.
Proof.
  gated_split setTriLED.
  destruct ((1 <=? port) && (port <=? 2)) eqn:G; [apply guard_range in G; gated_valid 4%nat|gated_invalid].
Qed.

#[export] Instance setPositionServo_gated (port angle : Z) :
  GatedOp (fun fuel => setPositionServo fuel port angle) tt.
Proof.
  gated_split setPositionServo.
  destruct ((1 <=? port) && (port <=? 4)) eqn:G; [apply guard_range in G; gated_valid 4%nat|gated_invalid].
Qed.

#[export] Instance setRotationServo_gated (port speed : Z) :
  GatedOp (fun fuel => setRotationServo fuel port speed) tt.
Proof.
  gated_split setRotationServo.
  destruct ((1 <=? port) && (port <=? 4)) eqn:G; [apply guard_range in G; gated_valid 4%nat|gated_invalid].
Qed.

#[export] Instance getSensor_gated (sensor port : Z) :
  GatedOp (fun fuel => getSensor fuel sensor port) 0.
Proof.
  gated_split getSensor.
  destruct ((1 <=? port) && (port <=? 3)) eqn:G; [apply guard_range in G|gated_invalid].
  destruct (Z.eqb_spec port 1) as [->|H1]; [gated_valid 6%nat|].
  destruct (Z.eqb_spec port 2) as [->|H2]; [gated_valid 6%nat|]. replace port with 3 by lia.
  gated_valid 6%nat.
Qed.

#[export] Instance getBattery_gated : GatedOp getBattery 0.
Proof. gated_split getBattery. gated_valid 4%nat. Qed.

(** C3: [setTriLED] on a valid port with the flag set sends one
    framed command [0xC3 + port, red, green, blue] (the percentages
    clamped and scaled), exchanges 4 bytes and leaves the flag set. *)
Theorem setTriLED_sends_frame (fuel : nat) (port red green blue : Z) (w : world) :
  (coarse_fuel <= fuel)%nat -> readyToSend w = true -> 1 <= port <= 2 ->
  setTriLED fuel port red green blue w =
  (Ok tt, advance w true 4
     (command_frame [tri_port_val port; tri_channel red; tri_channel green; tri_channel blue])).
Proof.
  intros Hf R Hp. unfold setTriLED.
  rewrite gate_prefix_ready by assumption.
  guard_true.
  rewrite spin_then_clear by (unfold coarse_fuel in Hf; lia || assumption).
  bytes_in_range. run_straight.
Qed.

(** C5: [setLED] with the flag set: port 1 scrolls "1" and sends the
    framed command [0xC0, intensityScaled, 0xFF, 0xFF]; ports 2 and 3
    scroll the port and drive [pin2] / [pin8] with [intensityScaled * 4],
    outside the bus.  The flag is set again afterwards. *)
Theorem setLED_effect (fuel : nat) (port intensity : Z) (w : world) :
  (coarse_fuel <= fuel)%nat -> readyToSend w = true -> 1 <= port <= 3 ->
  setLED fuel port intensity w =
  (Ok tt,
   if port =? 1 then
     advance w true 4 (EScroll 1 :: command_frame [192; intensityScaled intensity; 255; 255])
   else advance w true 0
     [EScroll port; EAnalog (if port =? 2 then pin2 else pin8) (led_analog_value intensity)]).
Proof.
  intros Hf R Hp. unfold setLED.
  rewrite gate_prefix_ready by assumption.
  guard_true.
  rewrite spin_then_clear by (unfold coarse_fuel in Hf; lia || assumption).
  bytes_in_range.
  destruct (Z.eqb_spec port 1) as [->|H1]; [run_straight|].
  pose proof (intensityScaled_range intensity).
  unfold write_analog. rewrite analog_cond_true by lia.
  destruct (Z.eqb_spec port 2) as [->|H2]; [run_straight|].
  replace port with 3 by lia. run_straight.
Qed.

(** C4: [setPositionServo] and [setRotationServo] on a valid port
    with the flag set each send one framed command
    [0xC5 + port, byte, 0xFF, 0xFF], the byte being the converted angle or
    speed, and leave the flag set. *)
Theorem servos_send_frame (fuel : nat) (port x : Z) (w : world) :
  (coarse_fuel <= fuel)%nat -> readyToSend w = true -> 1 <= port <= 4 ->
  setPositionServo fuel port x w =
    (Ok tt, advance w true 4 (command_frame [servo_port_val port; angle_conv x; 255; 255])) /\
  setRotationServo fuel port x w =
    (Ok tt, advance w true 4 (command_frame [servo_port_val port; speed_conv x; 255; 255])).
Proof.
  intros Hf R Hp. unfold setPositionServo, setRotationServo.
  rewrite !gate_prefix_ready by assumption.
  guard_true.
  rewrite !spin_then_clear by (unfold coarse_fuel in Hf; lia || assumption).
  bytes_in_range. split; run_straight.
Qed.

(** C1: [getSensor] on a port in 1..3 with the flag set performs
    the six-exchange poll, sets the flag again and returns the reading of
    the requested kind computed from the reply of exchange 5 (port 1),
    6 (port 2) or 3 (port 3). *)
Theorem getSensor_reads_port (fuel : nat) (sensor port : Z) (w : world) :
  (coarse_fuel <= fuel)%nat -> readyToSend w = true -> 1 <= port <= 3 ->
  getSensor fuel sensor port w =
  (Ok (sensor_value sensor (byte_val (rx w (sensor_slot port + nxfer w)%nat))),
   advance w true 6 (sensor_poll_events (rx w) (nxfer w))).
Proof.
  intros Hf R Hp. unfold getSensor.
  rewrite gate_prefix_ready by assumption.
  guard_true.
  rewrite spin_then_clear by (unfold coarse_fuel in Hf; lia || assumption).
  unfold sensor_poll_events, sensor_slot.
  destruct (Z.eqb_spec port 1) as [->|H1]; [run_straight|].
  destruct (Z.eqb_spec port 2) as [->|H2]; [run_straight|].
  replace port with 3 by lia. run_straight.
Qed.

(** C9: [getBattery] with the flag set performs one framed
    four-exchange poll [0x55, 0x66, 0x77, 0x88] (not the six-exchange
    sensor poll), sets the flag again and returns [round(raw * 406 / 10)]
    of the fourth reply. *)
Theorem getBattery_reads_fourth (fuel : nat) (w : world) :
  (coarse_fuel <= fuel)%nat -> readyToSend w = true ->
  let r := rx w in let n := nxfer w in
  getBattery fuel w =
  (Ok (battery_value (byte_val (r (3 + n)%nat))),
   advance w true 4 (framed [ESpiXfer Byte.x55 (r n); ESpiXfer Byte.x66 (r (1 + n)%nat);
                             ESpiXfer Byte.x77 (r (2 + n)%nat); ESpiXfer Byte.x88 (r (3 + n)%nat)])).
Proof.
  intros Hf R. unfold getBattery.
  rewrite gate_prefix_ready_noguard by assumption.
  rewrite spin_then_clear by (unfold coarse_fuel in Hf; lia || assumption).
  run_straight.
Qed.

(** C6: with the flag set, an operation called with a port outside
    its range ([setLED] and [getSensor] 1..3, [setTriLED] 1..2, the servo
    setters 1..4) returns its default ([None], here [tt], or 0) at once, leaving the
    world unchanged: no event, no SPI exchange, the flag untouched. *)
Theorem invalid_port_no_transaction (fuel : nat) (port x y z : Z) (w : world) :
  (coarse_fuel <= fuel)%nat -> readyToSend w = true ->
  ((port < 1 \/ 3 < port) -> setLED fuel port x w = (Ok tt, w) /\ getSensor fuel x port w = (Ok 0, w)) /\
  ((port < 1 \/ 2 < port) -> setTriLED fuel port x y z w = (Ok tt, w)) /\
  ((port < 1 \/ 4 < port) ->
     setPositionServo fuel port x w = (Ok tt, w) /\ setRotationServo fuel port x w = (Ok tt, w)).
Proof.
  intros Hf R.
  unfold setLED, getSensor, setTriLED, setPositionServo, setRotationServo.
  rewrite !gate_prefix_ready by assumption.
  refine (conj _ (conj _ _)); intros Hp; repeat split;
    match goal with
    | |- context [(1 <=? port) && (port <=? ?k)] =>
        replace ((1 <=? port) && (port <=? k)) with false
          by (symmetry; apply andb_false_iff; lia)
    end; reflexivity.
Qed.

(** C7: while the flag is clear and no other task runs (before
    [startHummingbird], or after a task died holding it), every operation
    sleeps 10 ms 25 times, then returns its default without touching the
    bus or the flag. *)
Theorem not_ready_gives_up (fuel : nat) (sensor port x y z : Z) (w : world) :
  (coarse_fuel <= fuel)%nat -> readyToSend w = false ->
  let w' := with_events w (sleeps_ms 25) in
  setLED fuel port x w = (Ok tt, w') /\ setTriLED fuel port x y z w = (Ok tt, w') /\
  setPositionServo fuel port x w = (Ok tt, w') /\ setRotationServo fuel port x w = (Ok tt, w') /\
  getSensor fuel sensor port w = (Ok 0, w') /\ getBattery fuel w = (Ok 0, w').
Proof.
  intros Hf R.
  unfold setLED, setTriLED, setPositionServo, setRotationServo, getSensor, getBattery.
  rewrite !gate_prefix_clear, gate_prefix_clear_noguard by assumption.
  repeat split.
Qed.

(** C16: [startHummingbird] zeroes [pin0], waits 2 s, raises the
    strobe, initialises SPI, sends the framed handshake
    [0xCB, 0xFF, 0xFF, 0xFF], sets the flag, zeroes the LED outputs on
    [pin2] and [pin8] and prints; it does so whatever the flag was. *)
Theorem startHummingbird_effect (w : world) :
  startHummingbird w =
  (Ok tt, advance w true 4
     ([EAnalog pin0 0; ESleepMs waitTime_Start; EDigital pin16 1; ESpiInit]
      ++ framed [ESpiWrite Byte.xcb; ESpiWrite Byte.xff; ESpiWrite Byte.xff; ESpiWrite Byte.xff]
      ++ [EAnalog pin2 0; EAnalog pin8 0; EPrint; EShow])).
Proof. unfold startHummingbird, write_analog. run_straight. Qed.

(** The world after [getSensor] on a valid port from a set flag. *)
Lemma getSensor_world (fuel : nat) (sensor port : Z) (w : world) :
  (coarse_fuel <= fuel)%nat -> readyToSend w = true -> 1 <= port <= 3 ->
  snd (getSensor fuel sensor port w) = advance w true 6 (sensor_poll_events (rx w) (nxfer w)).
Proof.
  intros Hf R Hp. unfold getSensor.
  rewrite gate_prefix_ready by assumption. guard_true.
  rewrite spin_then_clear by (unfold coarse_fuel in Hf; lia || assumption).
  unfold sensor_poll_events.
  destruct (Z.eqb_spec port 1) as [->|H1]; [run_straight|].
  destruct (Z.eqb_spec port 2) as [->|H2]; [run_straight|].
  replace port with 3 by lia. run_straight.
Qed.

(** C14: [getSensor] does not follow the Bus Transport delay profile:
    whatever list of exchanges is framed, the trace it adds is not that
    frame, because its exchanges 4-5 and 5-6 are separated by the short
    delay [waitTime_1] where the contract has the long one. *)
Theorem sensor_poll_not_framed (fuel : nat) (sensor port : Z) (w : world) (xs : list event) :
  (coarse_fuel <= fuel)%nat -> readyToSend w = true -> 1 <= port <= 3 ->
  trace (snd (getSensor fuel sensor port w)) <> trace w ++ framed xs.
Proof.
  intros Hf R Hp. rewrite getSensor_world by assumption.
  unfold advance. cbn [trace]. intros H. apply app_inv_head in H. revert H.
  unfold sensor_poll_events, framed, waitTime_1, waitTime_2, waitTime_Initial.
  destruct xs as [|x0 [|x1 [|x2 [|x3 [|x4 rest]]]]]; simpl; congruence.
Qed.

(** ** Witnesses, on a controller that answers [0x2A] to every exchange
    (or the byte [10 * n] at exchange [n]) *)

Lemma setTriLED_sends_frame_witness :
  setTriLED 26 2 100 50 0 (sample_world true (fun _ => Byte.x2a)) =
  (Ok tt, advance (sample_world true (fun _ => Byte.x2a)) true 4
     (command_frame [tri_port_val 2; tri_channel 100; tri_channel 50; tri_channel 0])).
Proof. exact (setTriLED_sends_frame 26 2 100 50 0 (sample_world true (fun _ => Byte.x2a)) ltac:(unfold coarse_fuel; lia) eq_refl ltac:(lia)). Defined.

Lemma setLED_effect_witness :
  setLED 26 1 40 (sample_world true (fun _ => Byte.x2a)) =
  (Ok tt, if 1 =? 1 then
     advance (sample_world true (fun _ => Byte.x2a)) true 4
       (EScroll 1 :: command_frame [192; intensityScaled 40; 255; 255])
   else advance (sample_world true (fun _ => Byte.x2a)) true 0
     [EScroll 1; EAnalog (if 1 =? 2 then pin2 else pin8) (led_analog_value 40)]).
Proof. exact (setLED_effect 26 1 40 (sample_world true (fun _ => Byte.x2a)) ltac:(unfold coarse_fuel; lia) eq_refl ltac:(lia)). Defined.

Lemma servos_send_frame_witness :
  setPositionServo 26 4 90 (sample_world true (fun _ => Byte.x2a)) =
    (Ok tt, advance (sample_world true (fun _ => Byte.x2a)) true 4
       (command_frame [servo_port_val 4; angle_conv 90; 255; 255])) /\
  setRotationServo 26 4 90 (sample_world true (fun _ => Byte.x2a)) =
    (Ok tt, advance (sample_world true (fun _ => Byte.x2a)) true 4
       (command_frame [servo_port_val 4; speed_conv 90; 255; 255])).
Proof. exact (servos_send_frame 26 4 90 (sample_world true (fun _ => Byte.x2a)) ltac:(unfold coarse_fuel; lia) eq_refl ltac:(lia)). Defined.

Lemma getSensor_reads_port_witness :
  getSensor 26 sensor_distance 1
    (sample_world true (fun n => byte_of_Z (10 * Z.of_nat n))) =
  (Ok (sensor_value sensor_distance
         (byte_val (byte_of_Z (10 * Z.of_nat (sensor_slot 1 + 0)%nat)))),
   advance (sample_world true (fun n => byte_of_Z (10 * Z.of_nat n))) true 6
     (sensor_poll_events (fun n => byte_of_Z (10 * Z.of_nat n)) 0)).
Proof. exact (getSensor_reads_port 26 sensor_distance 1 (sample_world true (fun n => byte_of_Z (10 * Z.of_nat n))) ltac:(unfold coarse_fuel; lia) eq_refl ltac:(lia)). Defined.

Lemma getBattery_reads_fourth_witness :
  getBattery 26 (sample_world true (fun _ => Byte.xff)) =
  (Ok (battery_value (byte_val Byte.xff)),
   advance (sample_world true (fun _ => Byte.xff)) true 4
     (framed [ESpiXfer Byte.x55 Byte.xff; ESpiXfer Byte.x66 Byte.xff;
              ESpiXfer Byte.x77 Byte.xff; ESpiXfer Byte.x88 Byte.xff])).
Proof. exact (getBattery_reads_fourth 26 (sample_world true (fun _ => Byte.xff)) ltac:(unfold coarse_fuel; lia) eq_refl). Defined.

Lemma invalid_port_no_transaction_witness :
  (5 < 1 \/ 4 < 5) /\
  setPositionServo 26 5 90 (sample_world true (fun _ => Byte.x2a)) =
    (Ok tt, mkWorld true (fun _ => Byte.x2a) 0 []).
Proof.
  split; [lia|].
  exact (proj1 (proj2 (proj2 (invalid_port_no_transaction 26 5 90 0 0 (sample_world true (fun _ => Byte.x2a))
    ltac:(unfold coarse_fuel; lia) eq_refl)) ltac:(lia))).
Defined.

Lemma not_ready_gives_up_witness :
  getSensor 26 sensor_light 2 (sample_world false (fun _ => Byte.x2a)) =
  (Ok 0, with_events (sample_world false (fun _ => Byte.x2a)) (sleeps_ms 25)).
Proof.
  exact (proj1 (proj2 (proj2 (proj2 (proj2 (not_ready_gives_up 26 sensor_light 2 0 0 0 (sample_world false (fun _ => Byte.x2a))
    ltac:(unfold coarse_fuel; lia) eq_refl)))))).
Defined.

Lemma sensor_poll_not_framed_witness :
  trace (snd (getSensor 26 sensor_sound 2 (sample_world true (fun _ => Byte.x2a)))) <>
  trace (sample_world true (fun _ => Byte.x2a)) ++
    framed (repeat (ESpiXfer Byte.x00 Byte.x2a) 6).
Proof.
  exact (sensor_poll_not_framed 26 sensor_sound 2 (sample_world true (fun _ => Byte.x2a))
           (repeat (ESpiXfer Byte.x00 Byte.x2a) 6) ltac:(unfold coarse_fuel; lia) eq_refl ltac:(lia)).
Defined.
