(* ===== verification/Concurrency.v ===== *)
(** * Tasks sharing [hummingbird.readyToSend]

    The spec has several call sites (a main routine and a background
    task) run operations of [src/hummingbird.py] concurrently, with the
    class attribute [readyToSend] as the only serialisation.  A task is at
    one control point of an operation; [tstep] is one statement of that
    operation (a loop test, the guard, [readyToSend = False], a sleep of
    the transaction, [readyToSend = True]), flagged when it is a sleep,
    the only place where a cooperative scheduler switches tasks.

    - [coop_step]: a task runs from one sleep to the next ([segment]).
    - [fine_step]: any task runs one statement (a scheduler that may
      preempt between any two statements).

    The theorems: under [coop_step] the flag is a lock (at most one task
    holds the bus, and none while the flag is set); under [fine_step] two
    tasks reach their transactions together; re-running
    [startHummingbird] while a task holds the bus breaks the lock even
    under [coop_step]. *)

From stdpp Require Import list relations.
From Stdlib Require Import Lia ZArith.
From S2P Require Import Prelude Hardware Encoder Decoder Gate Driver.
Open Scope nat_scope.

(** ** Control points *)

Inductive task : Type :=
  | TCoarse (timeout : nat) (valid : bool) (k : nat)
      (** at the test [not readyToSend and timeout < 25]; [valid] is the
          port range test, [k] the sleeps of the transaction *)
  | TGuard (valid : bool) (k : nat)   (** at [if (valid and readyToSend):] *)
  | TSpin (k : nat)                   (** at [while (not readyToSend):] *)
  | TAcq (k : nat)                    (** at [readyToSend = False] *)
  | TBusy (k : nat)                   (** in the transaction, [k] sleeps left *)
  | TStart (k : nat)                  (** in [startHummingbird], [k] sleeps left *)
  | TDone.

(** One statement of a task: [tstep f t f' t' y] when the flag [f] and
    control point [t] become [f'] and [t'], [y] telling whether the
    statement was a sleep. *)
Inductive tstep : bool -> task -> bool -> task -> bool -> Prop :=
  | ts_coarse_sleep f t v k :
      f = false -> t < 25 -> tstep f (TCoarse t v k) f (TCoarse (S t) v k) true
  | ts_coarse_exit f t v k :
      ~ (f = false /\ t < 25) -> tstep f (TCoarse t v k) f (TGuard v k) false
  | ts_guard_pass f v k :
      v && f = true -> tstep f (TGuard v k) f (TSpin k) false
  | ts_guard_fail f v k :
      v && f = false -> tstep f (TGuard v k) f TDone false
  | ts_spin_sleep k : tstep false (TSpin k) false (TSpin k) true
  | ts_spin_exit k : tstep true (TSpin k) true (TAcq k) false
  | ts_acquire f k : tstep f (TAcq k) false (TBusy k) false
  | ts_busy_sleep f k : tstep f (TBusy (S k)) f (TBusy k) true
  | ts_release f : tstep f (TBusy 0) true TDone false
  | ts_start_sleep f k : tstep f (TStart (S k)) f (TStart k) true
  | ts_start_ready f : tstep f (TStart 0) true TDone false.

(** A cooperative time slice: statements up to and including the next
    sleep, or up to the end of the operation. *)
Inductive segment : bool -> task -> bool -> task -> Prop :=
  | seg_sleep f t f' t' : tstep f t f' t' true -> segment f t f' t'
  | seg_end f t f' : tstep f t f' TDone false -> segment f t f' TDone
  | seg_more f t f' t' f'' t'' :
      tstep f t f' t' false -> segment f' t' f'' t'' -> segment f t f'' t''.

Record sys : Type := Sys { flag : bool; tasks : list task }.

Inductive coop_step : sys -> sys -> Prop :=
  | coop_run s i t f' t' :
      tasks s !! i = Some t -> segment (flag s) t f' t' ->
      coop_step s (Sys f' (<[i := t']> (tasks s))).

Inductive fine_step : sys -> sys -> Prop :=
  | fine_run s i t f' t' y :
      tasks s !! i = Some t -> tstep (flag s) t f' t' y ->
      fine_step s (Sys f' (<[i := t']> (tasks s))).

(** ** Who holds the bus *)

Definition in_transaction (t : task) : bool :=
  match t with TBusy _ => true | _ => false end.

(** A task holding the token: in its transaction, or starting the board. *)
Definition holds (t : task) : bool :=
  match t with TBusy _ | TStart _ => true | _ => false end.

(** A control point where a cooperative slice can stop. *)
Definition quiescent (t : task) : bool :=
  match t with TGuard _ _ | TSpin _ | TAcq _ => false | _ => true end.

Definition b2n (b : bool) : nat := if b then 1 else 0.

Fixpoint holders (l : list task) : nat :=
  match l with [] => 0 | t :: l => b2n (holds t) + holders l end.

(** Inside a slice, the spin loop is entered and left with the flag the
    guard has just seen set. *)
Definition ok_local (f : bool) (t : task) : Prop :=
  match t with TSpin _ | TAcq _ => f = true | _ => True end.

(** A bound on the slices a task still runs: the coarse rounds left, the
    gate, and the sleeps of its transaction. *)
Definition task_measure (t : task) : nat :=
  match t with
  | TCoarse t _ k => (25 - t) + k + 2
  | TGuard _ k | TSpin k => k + 2
  | TAcq k | TBusy k | TStart k => k + 1
  | TDone => 0
  end.

(** The lock invariant: the token is in at most one place (the flag, or a
    task in its transaction or start-up), and every task is stopped at a
    sleep or finished. *)
Definition lock_inv (s : sys) : Prop :=
  holders (tasks s) + b2n (flag s) <= 1 /\ Forall (fun t => quiescent t = true) (tasks s).

(** A task about to run [op]: [TCoarse 0 valid k]. *)
Definition spawn (valid : bool) (k : nat) : task := TCoarse 0 valid k.

(** ** The operations as tasks *)

(** A call of one of the operations that take the gate. *)
Inductive call : Type :=
  | CSetLED (port intensity : Z)
  | CSetTriLED (port red green blue : Z)
  | CSetPositionServo (port angle : Z)
  | CSetRotationServo (port speed : Z)
  | CGetSensor (sensor port : Z)
  | CGetBattery.

Definition run_call (fuel : nat) (c : call) : HB unit :=
  match c with
  | CSetLED p i => setLED fuel p i
  | CSetTriLED p r g b => setTriLED fuel p r g b
  | CSetPositionServo p a => setPositionServo fuel p a
  | CSetRotationServo p s => setRotationServo fuel p s
  | CGetSensor s p => _ <- getSensor fuel s p ;; ret tt
  | CGetBattery => _ <- getBattery fuel ;; ret tt
  end.

(** The port test of the operation's [if]. *)
Definition call_guard (c : call) : bool :=
  match c with
  | CSetLED p _ | CGetSensor _ p => (1 <=? p)%Z && (p <=? 3)%Z
  | CSetTriLED p _ _ _ => (1 <=? p)%Z && (p <=? 2)%Z
  | CSetPositionServo p _ | CSetRotationServo p _ => (1 <=? p)%Z && (p <=? 4)%Z
  | CGetBattery => true
  end.

(** The sleeps between [readyToSend = False] and [readyToSend = True]. *)
Definition transaction_sleeps (c : call) : nat :=
  match c with
  | CSetLED p _ => if (p =? 1)%Z then 6 else 0
  | CGetSensor _ _ => 8
  | _ => 6
  end.

Definition call_task (c : call) : task := spawn (call_guard c) (transaction_sleeps c).

(** The sleep events of a trace. *)
Definition is_sleep (e : event) : bool :=
  match e with ESleepMs _ | ESleepUs _ => true | _ => false end.

Definition count_sleeps (evs : list event) : nat := length (List.filter is_sleep evs).

(** ** Decidability *)

#[export] Instance task_eq_dec : EqDecision task.
Proof. solve_decision. Defined.

#[export] Instance call_eq_dec : EqDecision call.
Proof. solve_decision. Defined.

(** The lock invariant is decided by evaluation. *)
#[export] Instance lock_inv_dec (s : sys) : Decision (lock_inv s).
Proof. unfold lock_inv. apply _. Defined.

(** Prove a decidable goal on a concrete state by evaluation. *)
Ltac decide_by_eval :=
  match goal with |- ?P => apply (bool_decide_unpack P); vm_compute; reflexivity end.

(** ** Counting holders *)

Lemma holders_insert (l : list task) (i : nat) (t t' : task) :
  l !! i = Some t -> holders (<[i := t']> l) + b2n (holds t) = holders l + b2n (holds t').
Proof.
  revert i. induction l as [|x l IH]; intros [|i] H; simpl in *; try discriminate.
  - injection H as ->. lia.
  - specialize (IH i H). lia.
Qed.

Lemma holders_lookup (l : list task) (i : nat) (t : task) :
  l !! i = Some t -> b2n (holds t) <= holders l.
Proof.
  revert i. induction l as [|x l IH]; intros [|i] H; simpl in *; try discriminate.
  - injection H as ->. lia.
  - specialize (IH i H). lia.
Qed.

Lemma holders_two (l : list task) (i j : nat) (ti tj : task) :
  l !! i = Some ti -> l !! j = Some tj -> i <> j -> holds ti = true -> holds tj = true ->
  2 <= holders l.
Proof.
  revert i j. induction l as [|x l IH]; intros [|i] [|j] Hi Hj Hne Ht Hu;
    simpl in *; try discriminate; try congruence.
  - injection Hi as ->. rewrite Ht. pose proof (holders_lookup l j tj Hj). rewrite Hu in H. simpl in *. lia.
  - injection Hj as ->. rewrite Hu. pose proof (holders_lookup l i ti Hi). rewrite Ht in H. simpl in *. lia.
  - pose proof (IH i j Hi Hj ltac:(lia) Ht Hu). lia.
Qed.

(** ** One slice keeps the token in one place *)

Section Slice.
(** [o]: the holders among the other tasks, which a slice does not touch. *)
Variable o : nat.

Lemma tstep_token f t f' t' y :
  tstep f t f' t' y -> ok_local f t -> o + b2n (holds t) + b2n f <= 1 ->
  o + b2n (holds t') + b2n f' <= 1 /\ ok_local f' t' /\ (y = true -> quiescent t' = true).
Proof.
  destruct 1; simpl; intros Hl Hc; subst; try destruct f; simpl in *;
    repeat split; try lia; try congruence.
Qed.

Lemma segment_token f t f' t' :
  segment f t f' t' -> ok_local f t -> o + b2n (holds t) + b2n f <= 1 ->
  o + b2n (holds t') + b2n f' <= 1 /\ quiescent t' = true.
Proof.
  induction 1 as [f t f' t' H|f t f' H|f t f' t' f'' t'' H _ IH]; intros Hl Hc.
  - destruct (tstep_token _ _ _ _ _ H Hl Hc) as (? & _ & Hq). auto.
  - destruct (tstep_token _ _ _ _ _ H Hl Hc) as (? & _ & _). auto.
  - destruct (tstep_token _ _ _ _ _ H Hl Hc) as (? & ? & _). auto.
Qed.
End Slice.

Lemma tstep_measure f t f' t' y :
  tstep f t f' t' y -> ok_local f t ->
  (y = true -> task_measure t' < task_measure t) /\
  (y = false -> task_measure t' <= task_measure t /\ ok_local f' t') /\
  1 <= task_measure t.
Proof.
  destruct 1; simpl; intros Hl; subst; try destruct f;
    repeat split; intros; try lia; try discriminate; try (destruct v; discriminate).
Qed.

(** Each cooperative slice of a task strictly lowers its measure. *)
Lemma segment_measure f t f' t' :
  segment f t f' t' -> ok_local f t -> task_measure t' < task_measure t.
Proof.
  induction 1 as [f t f' t' H|f t f' H|f t f' t' f'' t'' H _ IH]; intros Hl;
    destruct (tstep_measure _ _ _ _ _ H Hl) as (Hy & Hn & Hpos).
  - auto.
  - simpl. lia.
  - destruct (Hn eq_refl) as [Hle Hl']. specialize (IH Hl'). lia.
Qed.

Lemma quiescent_ok_local f t : quiescent t = true -> ok_local f t.
Proof. destruct t; simpl; easy. Qed.

Lemma coop_step_inv s s' : coop_step s s' -> lock_inv s -> lock_inv s'.
Proof.
  intros [s0 i t f' t' Hi Hseg] [Hc Hq].
  pose proof (Forall_lookup_1 _ _ _ _ Hq Hi) as Hqt.
  pose proof (holders_insert (tasks s0) i t t' Hi) as Hins.
  pose proof (holders_lookup (tasks s0) i t Hi).
  destruct (segment_token (holders (tasks s0) - b2n (holds t)) _ _ _ _ Hseg
              (quiescent_ok_local _ _ Hqt) ltac:(lia)) as [Hc' Hq'].
  split; simpl; [lia | apply Forall_insert; assumption].
Qed.

Lemma rtc_coop_inv s s' : rtc coop_step s s' -> lock_inv s -> lock_inv s'.
Proof. induction 1; eauto using coop_step_inv. Qed.

(** ** The tasks of the real operations *)

(** After the gate: a valid call's transaction, evaluated. *)
Ltac run_valid k :=
  rewrite spin_then_clear by (unfold coarse_fuel in *; lia || assumption);
  bytes_in_range; exists k; eexists;
  split; [run_straight | split; [intros _; reflexivity | intros; discriminate]].

(** An invalid call, which returns at once. *)
Ltac run_invalid :=
  exists 0, []; rewrite advance_nil by assumption;
  split; [reflexivity | split; [intros; discriminate | auto]].

(** ** Slices of the operations *)

(** From a set flag, an operation with a valid port takes the bus and
    runs up to the first sleep of its transaction. *)
Lemma seg_acquire t k : segment true (TCoarse t true (S k)) false (TBusy k).
Proof.
  eapply seg_more; [apply ts_coarse_exit; intros [? _]; discriminate|].
  eapply seg_more; [apply ts_guard_pass; reflexivity|].
  eapply seg_more; [apply ts_spin_exit|].
  eapply seg_more; [apply ts_acquire|].
  apply seg_sleep, ts_busy_sleep.
Qed.

Lemma seg_start_sleep f k : segment f (TStart (S k)) f (TStart k).
Proof. apply seg_sleep, ts_start_sleep. Qed.

Lemma seg_start_ready f : segment f (TStart 0) true TDone.
Proof. apply seg_end, ts_start_ready. Qed.

(** Run task [i] for one cooperative slice given by [seg]. *)
Ltac coop_go i seg :=
  eapply rtc_l; [eapply (coop_run _ i); [reflexivity | apply seg] | cbn].

Ltac fine_go i st :=
  eapply rtc_l; [eapply (fine_run _ i); [reflexivity | st] | cbn].

(** ** Properties *)

(** C2: under a cooperative scheduler (a task switches only when it
    sleeps) the flag is a lock: from any state where the token is in one
    place, every reachable state has at most one task in its transaction,
    and while a task is in its transaction the flag is clear, so no other
    task passes the guard. *)
Theorem coop_mutual_exclusion (s0 s : sys) :
  lock_inv s0 -> rtc coop_step s0 s ->
  (forall i j ti tj, tasks s !! i = Some ti -> tasks s !! j = Some tj ->
     in_transaction ti = true -> in_transaction tj = true -> i = j) /\
  (forall i t, tasks s !! i = Some t -> holds t = true -> flag s = false).
Proof.
  intros Hinv Hrtc. destruct (rtc_coop_inv _ _ Hrtc Hinv) as [Hc _]. split.
  - intros i j ti tj Hi Hj Ht Hu. destruct (decide (i = j)) as [|Hne]; [assumption|].
    assert (holds ti = true) by (destruct ti; easy).
    assert (holds tj = true) by (destruct tj; easy).
    pose proof (holders_two _ _ _ _ _ Hi Hj Hne H H0). lia.
  - intros i t Hi Ht. pose proof (holders_lookup _ _ _ Hi). rewrite Ht in H.
    destruct (flag s); simpl in *; lia.
Qed.

(** Witness: the board starting while two operations wait; the start-up
    finishes, then the first operation takes the bus. *)
Lemma coop_mutual_exclusion_witness :
  lock_inv (Sys false [TStart 1; spawn true 6; spawn true 8]) /\
  rtc coop_step (Sys false [TStart 1; spawn true 6; spawn true 8])
                (Sys false [TDone; TBusy 5; spawn true 8]) /\
  ((forall i j ti tj, tasks (Sys false [TDone; TBusy 5; spawn true 8]) !! i = Some ti ->
      tasks (Sys false [TDone; TBusy 5; spawn true 8]) !! j = Some tj ->
      in_transaction ti = true -> in_transaction tj = true -> i = j) /\
   (forall i t, tasks (Sys false [TDone; TBusy 5; spawn true 8]) !! i = Some t ->
      holds t = true -> flag (Sys false [TDone; TBusy 5; spawn true 8]) = false)).
Proof.
  assert (Hinv : lock_inv (Sys false [TStart 1; spawn true 6; spawn true 8]))
    by (decide_by_eval).
  assert (Hrtc : rtc coop_step (Sys false [TStart 1; spawn true 6; spawn true 8])
                               (Sys false [TDone; TBusy 5; spawn true 8])).
  { coop_go 0 seg_start_sleep. coop_go 0 seg_start_ready. coop_go 1 seg_acquire.
    apply rtc_refl. }
  split; [exact Hinv|]. split; [exact Hrtc|].
  apply (coop_mutual_exclusion _ _ Hinv Hrtc).
Defined.

(** C23: the task model of each operation is its code: from a set flag
    with enough fuel, a call whose port test passes runs a transaction
    with exactly [transaction_sleeps] sleeps (the yields a cooperative
    scheduler sees) and sets the flag again, and a call whose test fails
    changes nothing, as [call_task] assumes. *)
Theorem call_task_matches_driver (fuel : nat) (c : call) (w : world) :
  coarse_fuel <= fuel -> readyToSend w = true ->
  exists k evs, run_call fuel c w = (Ok tt, advance w true k evs) /\
    (call_guard c = true -> count_sleeps evs = transaction_sleeps c) /\
    (call_guard c = false -> k = 0 /\ evs = []).
Proof.
  intros Hf R.
  destruct c as [p i|p r g b|p a|p sp|sn p|]; unfold run_call, call_guard, transaction_sleeps;
    [unfold setLED|unfold setTriLED|unfold setPositionServo|unfold setRotationServo
    |unfold bind at 1, getSensor|unfold bind at 1, getBattery].
  all: try rewrite gate_prefix_ready by assumption.
  all: try rewrite gate_prefix_ready_noguard by assumption.
  - destruct ((1 <=? p) && (p <=? 3))%Z eqn:G; [apply guard_range in G|run_invalid].
    destruct (Z.eqb_spec p 1) as [->|H1]; [run_valid 4|].
    unfold write_analog. rewrite analog_cond_true by (pose proof (intensityScaled_range i); lia).
    destruct (Z.eqb_spec p 2) as [->|H2]; [run_valid 0|]. replace p with 3%Z by lia. run_valid 0.
  - destruct ((1 <=? p) && (p <=? 2))%Z eqn:G; [apply guard_range in G; run_valid 4|run_invalid].
  - destruct ((1 <=? p) && (p <=? 4))%Z eqn:G; [apply guard_range in G; run_valid 4|run_invalid].
  - destruct ((1 <=? p) && (p <=? 4))%Z eqn:G; [apply guard_range in G; run_valid 4|run_invalid].
  - destruct ((1 <=? p) && (p <=? 3))%Z eqn:G; [apply guard_range in G|run_invalid].
    destruct (Z.eqb_spec p 1) as [->|H1]; [run_valid 6|].
    destruct (Z.eqb_spec p 2) as [->|H2]; [run_valid 6|]. replace p with 3%Z by lia. run_valid 6.
  - run_valid 4.
Qed.

(** C24: the program as deployed: [startHummingbird] running (7 sleeps
    before it sets the flag) beside any tasks calling the operations,
    with the flag initially clear ([readyToSend = False] at class
    creation).  Under cooperative scheduling no two of them are ever in
    their transactions at once. *)
Theorem program_mutual_exclusion (cs : list call) (s : sys) :
  rtc coop_step (Sys false (TStart 7 :: map call_task cs)) s ->
  forall i j ti tj, tasks s !! i = Some ti -> tasks s !! j = Some tj ->
    in_transaction ti = true -> in_transaction tj = true -> i = j.
Proof.
  intros Hrtc.
  assert (Hinv : lock_inv (Sys false (TStart 7 :: map call_task cs))).
  { split; simpl.
    - assert (H0 : holders (map call_task cs) = 0)
        by (clear Hrtc; induction cs as [|c cs IH]; [reflexivity | exact IH]).
      rewrite H0. simpl. lia.
    - constructor; [reflexivity|]. apply Forall_forall. intros t Ht.
      apply list_elem_of_In, in_map_iff in Ht. destruct Ht as [c [<- _]]. reflexivity. }
  destruct (rtc_coop_inv _ _ Hrtc Hinv) as [Hc _].
  intros i j ti tj Hi Hj Ht Hu. destruct (decide (i = j)) as [|Hne]; [assumption|].
  pose proof (holders_two _ _ _ _ _ Hi Hj Hne
                ltac:(destruct ti; easy) ltac:(destruct tj; easy)). lia.
Qed.

(** C25: under cooperative scheduling every task makes progress: each
    of its slices strictly lowers [task_measure] (no task spins in the
    unbounded loop, since a slice enters it only with the flag set), so a
    call runs to its end within [27 + transaction_sleeps] of its own
    slices, at most 35 ([transaction_sleeps] is at most 8). *)
Theorem coop_slice_progress (s : sys) (i : nat) (t : task) (f' : bool) (t' : task) :
  lock_inv s -> tasks s !! i = Some t -> segment (flag s) t f' t' ->
  task_measure t' < task_measure t /\
  (forall c, task_measure (call_task c) = 27 + transaction_sleeps c /\ transaction_sleeps c <= 8).
Proof.
  intros [_ Hq] Hi Hseg. split.
  - apply (segment_measure _ _ _ _ Hseg), quiescent_ok_local, (Forall_lookup_1 _ _ _ _ Hq Hi).
  - intros []; unfold call_task, spawn, transaction_sleeps; simpl;
      try (destruct (_ =? 1)%Z); lia.
Qed.

(** C12: the flag is not a lock when a task can be preempted between
    two statements: from a set flag and two operations on valid ports
    (a state satisfying [lock_inv]), both pass the spin test before
    either clears the flag, and both run their transactions at once. *)
Theorem fine_race :
  lock_inv (Sys true [spawn true 6; spawn true 6]) /\
  rtc fine_step (Sys true [spawn true 6; spawn true 6]) (Sys false [TBusy 6; TBusy 6]).
Proof.
  split; [decide_by_eval|].
  fine_go 0 ltac:(apply ts_coarse_exit; intros [? _]; discriminate).
  fine_go 0 ltac:(apply ts_guard_pass; reflexivity).
  fine_go 0 ltac:(apply ts_spin_exit).
  fine_go 1 ltac:(apply ts_coarse_exit; intros [? _]; discriminate).
  fine_go 1 ltac:(apply ts_guard_pass; reflexivity).
  fine_go 1 ltac:(apply ts_spin_exit).
  fine_go 0 ltac:(apply ts_acquire).
  fine_go 1 ltac:(apply ts_acquire).
  apply rtc_refl.
Qed.

(** C13: [startHummingbird] sets the flag without taking it.
    Called again while an operation holds the bus, it sets the flag in
    the middle of that transaction, and a third task then enters its own
    transaction beside the first, even under the cooperative scheduler. *)
Theorem restart_breaks_lock :
  rtc coop_step (Sys true [spawn true 6; TStart 7; spawn true 6])
                (Sys false [TBusy 5; TDone; TBusy 5]).
Proof.
  coop_go 0 seg_acquire.
  do 7 coop_go 1 seg_start_sleep.
  coop_go 1 seg_start_ready.
  coop_go 2 seg_acquire.
  apply rtc_refl.
Qed.

Lemma call_task_matches_driver_witness :
  exists k evs,
    run_call 26 (CSetTriLED 1 100 0 0) (sample_world true (fun _ => Byte.x00)) =
      (Ok tt, advance (sample_world true (fun _ => Byte.x00)) true k evs) /\
    (call_guard (CSetTriLED 1 100 0 0) = true ->
       count_sleeps evs = transaction_sleeps (CSetTriLED 1 100 0 0)) /\
    (call_guard (CSetTriLED 1 100 0 0) = false -> k = 0 /\ evs = []).
Proof.
  exact (call_task_matches_driver 26 (CSetTriLED 1 100 0 0) (sample_world true (fun _ => Byte.x00))
           ltac:(unfold coarse_fuel; lia) eq_refl).
Defined.

Lemma program_mutual_exclusion_witness :
  rtc coop_step (Sys false (TStart 7 :: map call_task [CGetBattery; CSetTriLED 1 0 0 0]))
                (Sys false [TDone; TBusy 5; call_task (CSetTriLED 1 0 0 0)]) /\
  (forall i j ti tj,
     tasks (Sys false [TDone; TBusy 5; call_task (CSetTriLED 1 0 0 0)]) !! i = Some ti ->
     tasks (Sys false [TDone; TBusy 5; call_task (CSetTriLED 1 0 0 0)]) !! j = Some tj ->
     in_transaction ti = true -> in_transaction tj = true -> i = j).
Proof.
  assert (Hrtc : rtc coop_step (Sys false (TStart 7 :: map call_task [CGetBattery; CSetTriLED 1 0 0 0]))
                   (Sys false [TDone; TBusy 5; call_task (CSetTriLED 1 0 0 0)])).
  { cbn [map]. do 7 coop_go 0 seg_start_sleep. coop_go 0 seg_start_ready.
    coop_go 1 seg_acquire. apply rtc_refl. }
  split; [exact Hrtc|].
  exact (program_mutual_exclusion [CGetBattery; CSetTriLED 1 0 0 0] _ Hrtc).
Defined.

Lemma coop_slice_progress_witness :
  task_measure (TBusy 5) < task_measure (call_task CGetBattery) /\
  (forall c, task_measure (call_task c) = 27 + transaction_sleeps c /\ transaction_sleeps c <= 8).
Proof.
  exact (coop_slice_progress (Sys true [call_task CGetBattery]) 0 (call_task CGetBattery) false (TBusy 5)
           ltac:(decide_by_eval) eq_refl (seg_acquire 0 5)).
Defined.
