(* ===== verification/Session.v ===== *)
(** * Sessions: the operations called one after another by one task

    A program using the driver calls [startHummingbird] once and then
    the operations in sequence.  [run_seq] runs a list of operations
    each with the same fuel; [run_calls] runs a list of [call]s and
    [session] prefixes it with [startHummingbird].  The sequence lemmas
    use only the gate contract [GatedOp] of [Gate] (each operation's
    instance is in [Driver]); [wf_world] is the well-formedness of a
    world the spec's lifecycle implies: no SPI exchange was made with
    the strobe high, and while the flag is set the strobe is high (no
    frame is open). *)

From Stdlib Require Import ZArith List Bool Lia.
From S2P Require Import Prelude Hardware Encoder Decoder Gate Driver Concurrency.
Import ListNotations.
Open Scope Z_scope.
Open Scope hb_scope.

(** ** Sequences *)

Fixpoint run_seq (fuel : nat) (ops : list (nat -> HB unit)) : HB unit :=
  match ops with
  | [] => ret tt
  | op :: rest => op fuel ;; run_seq fuel rest
  end.

Definition run_calls (fuel : nat) (cs : list call) : HB unit :=
  run_seq fuel (map (fun c fuel => run_call fuel c) cs).

Definition session (fuel : nat) (cs : list call) : HB unit :=
  startHummingbird ;; run_calls fuel cs.

(** ** Well-formed worlds *)

(** The strobe starts low at reset. *)
Definition wf_world (w : world) : bool :=
  match strobe_run false (trace w) with
  | Some hi => implb (readyToSend w) hi
  | None => false
  end.

(** ** Every call keeps the gate contract *)

Lemma gated_discard {A} (op : nat -> HB A) (d : A) :
  GatedOp op d -> GatedOp (fun fuel => _ <- op fuel ;; ret tt) tt.
Proof.
  intros G. split; intros fuel w Hf R; unfold bind.
  - rewrite (gated_clear fuel w Hf R). reflexivity.
  - destruct (gated_ready fuel w Hf R) as (a & k & evs & E & HS & HW).
    rewrite E. exists tt, k, evs. auto.
Qed.

#[export] Instance run_call_gated (c : call) : GatedOp (fun fuel => run_call fuel c) tt.
Proof.
  destruct c as [p i|p r g b|p a|p sp|sn p|].
  - exact (setLED_gated p i).
  - exact (setTriLED_gated p r g b).
  - exact (setPositionServo_gated p a).
  - exact (setRotationServo_gated p sp).
  - exact (gated_discard _ _ (getSensor_gated sn p)).
  - exact (gated_discard _ _ getBattery_gated).
Qed.

(** ** Traces *)

Lemma with_events_app (w : world) (a b : list event) :
  with_events (with_events w a) b = with_events w (a ++ b).
Proof. unfold with_events. simpl. rewrite app_assoc. reflexivity. Qed.

Lemma strobe_run_sleeps_ms (hi : bool) (n : nat) : strobe_run hi (sleeps_ms n) = Some hi.
Proof. induction n as [|n IH]; [reflexivity|]. destruct hi; exact IH. Qed.

Lemma sleeps_ms_add (n m : nat) : sleeps_ms (n + m) = sleeps_ms n ++ sleeps_ms m.
Proof. apply repeat_app. Qed.

Lemma waits_ms_app (a b : list event) : waits_ms (a ++ b) = waits_ms a || waits_ms b.
Proof. apply existsb_app. Qed.

(** [startHummingbird] takes the board to a set flag and a high strobe
    from any strobe level. *)
Lemma start_run (w : world) :
  exists evs, startHummingbird w = (Ok tt, advance w true 4 evs) /\
    forall hi, strobe_run hi evs = Some true.
Proof.
  eexists. split; [unfold startHummingbird, write_analog; run_straight | intros []; reflexivity].
Qed.

(** ** Sequences of gated operations *)

Section Sequences.
Variable fuel : nat.
Hypothesis Hfuel : (coarse_fuel <= fuel)%nat.

Lemma seq_ready (ops : list (nat -> HB unit)) (w : world) :
  Forall (fun op => GatedOp op tt) ops -> readyToSend w = true ->
  exists k evs, run_seq fuel ops w = (Ok tt, advance w true k evs) /\
    strobe_run true evs = Some true /\ waits_ms evs = false.
Proof.
  intros Hops. revert w. induction Hops as [|op ops G _ IH]; intros w R.
  - exists 0%nat, []. rewrite advance_nil by exact R. auto.
  - destruct (gated_ready fuel w Hfuel R) as ([] & k & evs & E & HS & HW).
    destruct (IH (advance w true k evs) eq_refl) as (k' & evs' & E' & HS' & HW').
    exists (k' + k)%nat, (evs ++ evs'). cbn [run_seq]. unfold bind. rewrite E, E'.
    rewrite advance_advance, strobe_run_app, HS, waits_ms_app, HW, HW'. auto.
Qed.

Lemma seq_clear (ops : list (nat -> HB unit)) (w : world) :
  Forall (fun op => GatedOp op tt) ops -> readyToSend w = false ->
  run_seq fuel ops w = (Ok tt, with_events w (sleeps_ms (25 * length ops))).
Proof.
  intros Hops. revert w. induction Hops as [|op ops G _ IH]; intros w R.
  - simpl. rewrite with_events_nil. reflexivity.
  - cbn [run_seq]. unfold bind. rewrite (gated_clear fuel w Hfuel R), IH by exact R.
    rewrite with_events_app, <- sleeps_ms_add. do 3 f_equal. simpl. lia.
Qed.

Lemma gated_wf {A} (op : nat -> HB A) (d : A) (w : world) :
  GatedOp op d -> wf_world w = true -> wf_world (snd (op fuel w)) = true.
Proof.
  intros G Hw. unfold wf_world in *.
  destruct (strobe_run false (trace w)) as [hi|] eqn:Ht; [|discriminate].
  destruct (readyToSend w) eqn:R; simpl in Hw.
  - destruct (gated_ready fuel w Hfuel R) as (a & k & evs & -> & HS & _).
    cbn [snd trace readyToSend advance]. rewrite strobe_run_app, Ht, Hw, HS. reflexivity.
  - rewrite (gated_clear fuel w Hfuel R). cbn [snd trace readyToSend with_events].
    rewrite strobe_run_app, Ht, strobe_run_sleeps_ms, R. reflexivity.
Qed.

End Sequences.

Lemma calls_gated (cs : list call) :
  Forall (fun op => GatedOp op tt) (map (fun c fuel => run_call fuel c) cs).
Proof. apply Forall_map, Forall_forall. intros c _. apply _. Qed.

(** ** Properties *)

(** C26: every operation keeps the world well formed, on every branch
    (flag clear or set, port valid or not): if no exchange so far was
    made with the strobe high and the strobe is high whenever the flag
    is set, this still holds after [startHummingbird] or any call. *)
Theorem operations_preserve_wf (fuel : nat) (c : call) (w : world) :
  (coarse_fuel <= fuel)%nat -> wf_world w = true ->
  wf_world (snd (run_call fuel c w)) = true /\ wf_world (snd (startHummingbird w)) = true.
Proof.
  intros Hf Hw. split; [exact (gated_wf fuel Hf _ tt w (run_call_gated c) Hw)|].
  destruct (start_run w) as (evs & -> & HS). unfold wf_world in *.
  cbn [snd trace readyToSend advance]. rewrite strobe_run_app.
  destruct (strobe_run false (trace w)) as [hi|]; [|discriminate].
  rewrite HS. reflexivity.
Qed.

(** C27: in a session ([startHummingbird], then any calls in one
    task) every call finds the flag set: no call makes a coarse 10 ms
    wait, none raises, the flag is set at the end, and after the start
    every exchange is made with the strobe low and the strobe ends
    high. *)
Theorem session_keeps_gate (fuel : nat) (cs : list call) (w : world) :
  (coarse_fuel <= fuel)%nat ->
  exists k evs0 evs, session fuel cs w = (Ok tt, advance w true k (evs0 ++ evs)) /\
    startHummingbird w = (Ok tt, advance w true 4 evs0) /\
    strobe_run true evs = Some true /\ waits_ms evs = false.
Proof.
  intros Hf. destruct (start_run w) as (evs0 & E0 & _).
  destruct (seq_ready fuel Hf _ (advance w true 4 evs0) (calls_gated cs) eq_refl)
    as (k & evs & E & HS & HW).
  exists (k + 4)%nat, evs0, evs. unfold session, run_calls, bind. rewrite E0, E.
  rewrite advance_advance. auto.
Qed.


(** ** Witnesses *)

Lemma operations_preserve_wf_witness :
  wf_world (snd (run_call 26 (CGetSensor 1 2) (sample_world false (fun _ => Byte.x00)))) = true /\
  wf_world (snd (startHummingbird (sample_world false (fun _ => Byte.x00)))) = true.
Proof.
  exact (operations_preserve_wf 26 (CGetSensor 1 2) (sample_world false (fun _ => Byte.x00))
           ltac:(unfold coarse_fuel; lia) eq_refl).
Defined.

Lemma session_keeps_gate_witness :
  exists k evs0 evs,
    session 26 [CSetLED 1 50; CGetSensor 1 2; CGetBattery] (sample_world false (fun _ => Byte.x2a)) =
      (Ok tt, advance (sample_world false (fun _ => Byte.x2a)) true k (evs0 ++ evs)) /\
    startHummingbird (sample_world false (fun _ => Byte.x2a)) =
      (Ok tt, advance (sample_world false (fun _ => Byte.x2a)) true 4 evs0) /\
    strobe_run true evs = Some true /\ waits_ms evs = false.
Proof.
  exact (session_keeps_gate 26 [CSetLED 1 50; CGetSensor 1 2; CGetBattery]
           (sample_world false (fun _ => Byte.x2a)) ltac:(unfold coarse_fuel; lia)).
Defined.

